(** * TempTracker: the temperature and humidity tracking API (src/main.py)

    A shallow embedding of the three data endpoints of [main.py]
    ([add_reading], [get_readings], [get_analysis]) and the properties of
    their validation, filtering, trend, comfort and anomaly logic.

    - The Firebase node ['readings'] is an explicit store that is passed in
      and out; the clock ([datetime.now()]) is an explicit argument [now].
    - Python exceptions are a result type; the [try]/[except] blocks of the
      endpoints are the handlers [except_http] and [except_exception].
    - Python's number type and the library functions the endpoints call
      ([statistics.mean], [statistics.stdev], [round],
      [datetime.fromisoformat], [datetime.isoformat]) are the interface
      [PyLib]; every theorem holds for each implementation of it.  The
      instance [QLib] (exact rationals) runs the endpoints on concrete
      stores. *)

From Stdlib Require Import ZArith String Ascii List Bool Lia.
From Stdlib Require Import Sorted Permutation QArith Qround Qabs Lqa.
Import ListNotations.
Open Scope string_scope.
Open Scope list_scope.
Open Scope Z_scope.

(** ** Exceptions and results *)

(** The exceptions the endpoints can meet: [HTTPException] (raised by the
    endpoints themselves) and the library's [OverflowError], [ValueError]
    and [StatisticsError].  A [detail] is a literal of the source or
    [str(e)] of a caught exception. *)
Inductive exn : Type :=
| HTTPException (status_code : Z) (detail : detail)
| OverflowError
| ValueError
| StatisticsError
with detail : Type :=
| Literal (s : string)
| str (e : exn).

Inductive result (A : Type) : Type :=
| Return (a : A)
| Raise (e : exn).
Arguments Return {A} a.
Arguments Raise {A} e.

Definition bind {A B : Type} (m : result A) (k : A -> result B) : result B :=
  match m with
  | Return a => k a
  | Raise e => Raise e
  end.

Notation "x <- m ;; k" := (bind m (fun x => k))
  (at level 100, m at next level, right associativity).
Notation "' p <- m ;; k" := (bind m (fun x => let p := x in k))
  (at level 100, p pattern, m at next level, right associativity).

(** [except HTTPException: raise] followed by
    [except Exception as e: raise HTTPException(status_code=500, detail=str(e))]
    (add_reading, lines 72-75; get_analysis, lines 223-226). *)
Definition except_http {A : Type} (m : result A) : result A :=
  match m with
  | Return a => Return a
  | Raise (HTTPException c d) => Raise (HTTPException c d)
  | Raise e => Raise (HTTPException 500 (str e))
  end.

(** [except Exception as e: raise HTTPException(status_code=500, detail=str(e))]
    alone (get_readings, lines 101-102). *)
Definition except_exception {A : Type} (m : result A) : result A :=
  match m with
  | Return a => Return a
  | Raise e => Raise (HTTPException 500 (str e))
  end.

(** A [for] loop over a list that threads the variables it assigns and stops
    at the first exception. *)
Fixpoint for_each {S X : Type} (body : S -> X -> result S) (xs : list X) (s : S)
  : result S :=
  match xs with
  | [] => Return s
  | x :: xs' => s' <- body s x ;; for_each body xs' s'
  end.

(** ** Naive datetimes and timedeltas *)

(** A naive [datetime] is its number of microseconds since
    0001-01-01T00:00:00 ([datetime.min]); [datetime.max] is
    9999-12-31T23:59:59.999999, the last microsecond of day 3652059. *)
Definition datetime : Type := Z.
Definition timedelta : Type := Z.

Definition us_per_hour : Z := 3600000000.
Definition us_per_day : Z := 86400000000.
Definition datetime_min : datetime := 0.
Definition datetime_max : datetime := 3652059 * us_per_day - 1.

Definition datetime_in_range (d : Z) : bool :=
  (datetime_min <=? d) && (d <=? datetime_max).

(** [timedelta(hours=hours)]: the normalised number of days is
    [hours // 24]; a magnitude over 999999999 days raises [OverflowError]. *)
Definition timedelta_hours (hours : Z) : result timedelta :=
  if Z.abs (hours / 24) <=? 999999999
  then Return (hours * us_per_hour)
  else Raise OverflowError.

(** [d - td]: raises [OverflowError] when the date leaves
    [datetime.min .. datetime.max]. *)
Definition datetime_sub (d : datetime) (td : timedelta) : result datetime :=
  if datetime_in_range (d - td) then Return (d - td) else Raise OverflowError.

(** [datetime.now() - timedelta(hours=hours)] (lines 88 and 115), [now]
    being what [datetime.now()] returned. *)
Definition cutoff_time_of (now : datetime) (hours : Z) : result datetime :=
  td <- timedelta_hours hours ;;
  datetime_sub now td.

(** ** The library interface *)

Class PyLib : Type := {
  (** the numbers of a reading (Python [float], or [int] for a whole JSON
      number) *)
  num : Type;
  of_int : Z -> num;
  num_le : num -> num -> bool;
  num_lt : num -> num -> bool;
  num_sub : num -> num -> num;
  num_mul : num -> num -> num;
  num_abs : num -> num;
  (** [round(x, ndigits)] *)
  round : num -> Z -> num;
  (** [statistics.mean] and [statistics.stdev] *)
  mean : list num -> result num;
  stdev : list num -> result num;
  (** [datetime.fromisoformat] and [datetime.isoformat], on naive
      datetimes: a string that is no ISO timestamp raises, and so does one
      with a UTC offset, which the endpoints cannot compare with their
      naive cutoff *)
  fromisoformat : string -> result datetime;
  isoformat : datetime -> string;
  (** [<] on numbers is irreflexive and transitive (also with NaN) *)
  num_lt_irrefl : forall x, num_lt x x = false;
  num_lt_trans : forall x y z,
      num_lt x y = true -> num_lt y z = true -> num_lt x z = true;
  (** [mean] needs one data point, [stdev] two *)
  mean_empty : mean [] = Raise StatisticsError;
  mean_cons : forall x l, exists m, mean (x :: l) = Return m;
  stdev_short : forall l, (length l < 2)%nat -> stdev l = Raise StatisticsError;
  stdev_cons : forall x y l, exists s, stdev (x :: y :: l) = Return s
}.

(** [a > b] on numbers. *)
Definition num_gt `{PyLib} (a b : num) : bool := num_lt b a.

(** [lo <= x <= hi] with integer literals. *)
Definition between `{PyLib} (lo : Z) (x : num) (hi : Z) : bool :=
  num_le (of_int lo) x && num_le x (of_int hi).

(** ** Builtins: [max], [min], [sorted], [zip] *)

Module Builtins.

(** [max(l)]: the first element is kept until an item compares [>] to it;
    [ValueError] on an empty list. *)
Definition max `{PyLib} (l : list num) : result num :=
  match l with
  | [] => Raise ValueError
  | x :: xs =>
      Return (fold_left (fun maxval item => if num_gt item maxval then item else maxval) xs x)
  end.

(** [min(l)]: as [max], with [<]. *)
Definition min `{PyLib} (l : list num) : result num :=
  match l with
  | [] => Raise ValueError
  | x :: xs =>
      Return (fold_left (fun minval item => if num_lt item minval then item else minval) xs x)
  end.

(** [sorted(l, key=key)] is stable and compares keys with [<] only: an
    element goes in front of the first one whose key is not smaller than its
    own, so it stays ahead of the later elements with an equal key. *)
Fixpoint insert {A K : Type} (ltb : K -> K -> bool) (key : A -> K) (x : A) (l : list A)
  : list A :=
  match l with
  | [] => [x]
  | y :: l' => if ltb (key y) (key x) then y :: insert ltb key x l' else x :: y :: l'
  end.

Fixpoint sorted {A K : Type} (ltb : K -> K -> bool) (key : A -> K) (l : list A) : list A :=
  match l with
  | [] => []
  | x :: l' => insert ltb key x (sorted ltb key l')
  end.

(** [zip(a, b, c)] stops with the shortest list. *)
Fixpoint zip {A B C : Type} (a : list A) (b : list B) (c : list C) : list (A * B * C) :=
  match a, b, c with
  | x :: a', y :: b', z :: c' => (x, y, z) :: zip a' b' c'
  | _, _, _ => []
  end.

End Builtins.

(** ** Data model *)

(** [SensorReading], the body of [POST /reading]. *)
Module SensorReading.
Record t `{PyLib} : Type := mk { temperature : num; humidity : num }.
Arguments mk {_}.
End SensorReading.

(** A reading as stored under ['readings'] and as returned by
    [GET /readings]: a dict with the keys ['temperature'], ['humidity'] and
    ['timestamp']. *)
Module Reading.
Record t `{PyLib} : Type := mk { temperature : num; humidity : num; timestamp : string }.
Arguments mk {_}.
End Reading.

(** The dict returned by [add_reading]. *)
Module Recorded.
Record t `{PyLib} : Type := mk { status : string; message : string; data : Reading.t }.
Arguments mk {_}.
End Recorded.

(** The dict returned by [clear_all_readings]. *)
Module Cleared.
Record t : Type := mk { status : string; message : string }.
End Cleared.

(** The ["temperature"] and ["humidity"] sections of the analysis. *)
Module Stats.
Record t `{PyLib} : Type := mk { average : num; max : num; min : num; trend : string }.
Arguments mk {_}.
End Stats.

Module Comfort.
Record t : Type := mk {
  level : string;
  score : Z;
  temperature_comment : string;
  humidity_comment : string
}.
End Comfort.

Module Anomaly.
Record t `{PyLib} : Type := mk {
  temperature : num;
  humidity : num;
  timestamp : string;
  reason : string
}.
Arguments mk {_}.
End Anomaly.

(** The dict returned by [get_analysis]. *)
Module Analysis.
Record t `{PyLib} : Type := mk {
  period_hours : Z;
  readings_count : Z;
  temperature : Stats.t;
  humidity : Stats.t;
  comfort : Comfort.t;
  anomalies : list Anomaly.t
}.
Arguments mk {_}.
End Analysis.

(** What [db.reference('readings').get()] returns: the stored readings with
    their push keys, in the order [readings.items()] yields them; the empty
    list stands for [None] (nothing stored). *)
Definition store `{PyLib} : Type := list (string * Reading.t).

(** ** The endpoints *)

Section Endpoints.
Context `{PyLib}.

(** *** POST /reading *)

(** The range checks of [add_reading] (lines 55-58), temperature first. *)
Definition validate (reading : SensorReading.t) : result unit :=
  if negb (between (-50) (SensorReading.temperature reading) 150) then
    Raise (HTTPException 400 (Literal "Temperature out of valid range"))
  else if negb (between 0 (SensorReading.humidity reading) 100) then
    Raise (HTTPException 400 (Literal "Humidity must be between 0 and 100"))
  else Return tt.

(** [add_reading] (lines 52-75).  [readings] is the store before the call,
    [key] the push key Firebase gives the new child; the store after the
    call is returned with the response. *)
Definition add_reading (readings : store) (now : datetime) (key : string)
    (reading : SensorReading.t) : store * result Recorded.t :=
  match validate reading with
  | Raise e => (readings, except_http (Raise e))
  | Return _ =>
      let new_reading :=
        Reading.mk (SensorReading.temperature reading)
                   (SensorReading.humidity reading)
                   (isoformat now) in
      (readings ++ [(key, new_reading)],
       Return (Recorded.mk "success" "Reading recorded" new_reading))
  end.

(** *** GET /readings *)

(** The loop body of lines 91-98. *)
Definition get_readings_body (cutoff_time : datetime)
    (filtered_readings : list Reading.t) (item : string * Reading.t)
  : result (list Reading.t) :=
  let reading := snd item in
  timestamp <- fromisoformat (Reading.timestamp reading) ;;
  if cutoff_time <? timestamp then
    Return (filtered_readings ++
              [Reading.mk (Reading.temperature reading)
                          (Reading.humidity reading)
                          (Reading.timestamp reading)])
  else Return filtered_readings.

(** [get_readings] (lines 79-102). *)
Definition get_readings (readings : store) (now : datetime) (hours : Z)
  : result (list Reading.t) :=
  except_exception
    (match readings with
     | [] => Return []
     | _ :: _ =>
         cutoff_time <- cutoff_time_of now hours ;;
         filtered_readings <- for_each (get_readings_body cutoff_time) readings [] ;;
         Return (Builtins.sorted String.ltb Reading.timestamp filtered_readings)
     end).

(** *** GET /analysis *)

(** The loop body of lines 120-125: the three lists grow together. *)
Definition get_analysis_body (cutoff_time : datetime)
    (acc : list num * list num * list datetime) (item : string * Reading.t)
  : result (list num * list num * list datetime) :=
  let '(temps, humidities, timestamps) := acc in
  let reading := snd item in
  timestamp <- fromisoformat (Reading.timestamp reading) ;;
  if cutoff_time <? timestamp then
    Return (temps ++ [Reading.temperature reading],
            humidities ++ [Reading.humidity reading],
            timestamps ++ [timestamp])
  else Return acc.

(** One trend (lines 142-144 and 146-148): the two slices of one column of
    [sorted_data], and the strict comparison of their means. *)
Definition half_trend {D : Type} (column : D -> num) (sorted_data : list D)
  : result string :=
  let first_half := map column (firstn (length sorted_data / 2)%nat sorted_data) in
  let second_half := map column (skipn (length sorted_data / 2)%nat sorted_data) in
  mean_second <- mean second_half ;;
  mean_first <- mean first_half ;;
  Return (if num_gt mean_second mean_first then "↑ Rising" else "↓ Falling").

(** Trend detection (lines 141-151). *)
Definition trends (sorted_data : list (datetime * num * num))
  : result (string * string) :=
  if (1 <? length sorted_data)%nat then
    temp_trend <- half_trend (fun t => snd (fst t)) sorted_data ;;
    humidity_trend <- half_trend (fun t => snd t) sorted_data ;;
    Return (temp_trend, humidity_trend)
  else Return ("→ Stable", "→ Stable").

(** Comfort analysis (lines 154-183); [comfort_score] is reassigned as the
    source does. *)
Definition comfort_analysis (avg_temp avg_humidity : num) : Comfort.t :=
  let comfort_score := 0 in
  let '(comfort_score, temp_comment) :=
    if between 18 avg_temp 24 then (comfort_score + 50, "Optimal temperature")
    else if between 15 avg_temp 30 then (comfort_score + 25, "Acceptable temperature")
    else (comfort_score, "Outside comfort zone") in
  let '(comfort_score, humidity_comment) :=
    if between 40 avg_humidity 60 then (comfort_score + 50, "Optimal humidity")
    else if between 30 avg_humidity 70 then (comfort_score + 25, "Acceptable humidity")
    else (comfort_score, "Outside comfort zone") in
  let comfort_level :=
    if comfort_score >=? 80 then "Excellent"
    else if comfort_score >=? 60 then "Good"
    else if comfort_score >=? 40 then "Fair"
    else "Poor" in
  Comfort.mk comfort_level comfort_score temp_comment humidity_comment.

(** [abs(x - avg) > 2 * std], the test of lines 192 and 197. *)
Definition spike (x avg std : num) : bool :=
  num_gt (num_abs (num_sub x avg)) (num_mul (of_int 2) std).

(** The loop body of lines 192-198. *)
Definition anomaly_body (avg_temp temp_std avg_humidity humidity_std : num)
    (anomalies : list Anomaly.t) (item : datetime * num * num) : list Anomaly.t :=
  let '(ts, temp, hum) := item in
  if spike temp avg_temp temp_std || spike hum avg_humidity humidity_std then
    anomalies ++
      [Anomaly.mk temp hum (isoformat ts)
         (if spike temp avg_temp temp_std then "Temperature spike" else "Humidity spike")]
  else anomalies.

(** Anomaly detection (lines 186-198). *)
Definition detect_anomalies (temps humidities : list num) (avg_temp avg_humidity : num)
    (sorted_data : list (datetime * num * num)) : result (list Anomaly.t) :=
  let anomalies := [] in
  if (2 <? length temps)%nat then
    temp_std <- stdev temps ;;
    humidity_std <- stdev humidities ;;
    Return (fold_left (anomaly_body avg_temp temp_std avg_humidity humidity_std)
                      sorted_data anomalies)
  else Return anomalies.

(** Lines 130-222: the analysis of the three lists the filter built. *)
Definition analyse (hours : Z) (temps humidities : list num) (timestamps : list datetime)
  : result Analysis.t :=
  avg_temp <- mean temps ;;
  avg_humidity <- mean humidities ;;
  max_temp <- Builtins.max temps ;;
  min_temp <- Builtins.min temps ;;
  max_humidity <- Builtins.max humidities ;;
  min_humidity <- Builtins.min humidities ;;
  let sorted_data :=
    Builtins.sorted Z.ltb (fun x => fst (fst x)) (Builtins.zip timestamps temps humidities) in
  '(temp_trend, humidity_trend) <- trends sorted_data ;;
  let comfort := comfort_analysis avg_temp avg_humidity in
  anomalies <- detect_anomalies temps humidities avg_temp avg_humidity sorted_data ;;
  Return (Analysis.mk hours (Z.of_nat (length temps))
            (Stats.mk (round avg_temp 2) (round max_temp 2) (round min_temp 2) temp_trend)
            (Stats.mk (round avg_humidity 2) (round max_humidity 2) (round min_humidity 2)
                      humidity_trend)
            comfort
            (firstn 5 anomalies)).

(** [get_analysis] (lines 106-226). *)
Definition get_analysis (readings : store) (now : datetime) (hours : Z)
  : result Analysis.t :=
  except_http
    (match readings with
     | [] => Raise (HTTPException 404 (Literal "No readings found"))
     | _ :: _ =>
         cutoff_time <- cutoff_time_of now hours ;;
         '(temps, humidities, timestamps) <-
            for_each (get_analysis_body cutoff_time) readings ([], [], []) ;;
         match temps with
         | [] => Raise (HTTPException 404 (Literal "No recent readings found"))
         | _ :: _ => analyse hours temps humidities timestamps
         end
     end).

(** *** DELETE /readings *)

(** [clear_all_readings] (lines 573-580): [ref.delete()] leaves nothing
    under ['readings']. *)
Definition clear_all_readings (readings : store) : store * result Cleared.t :=
  ([], except_exception (Return (Cleared.mk "success" "All readings deleted"))).

(** *** The filtered set *)

(** The cutoff of a request: [now] minus [hours] hours. *)
Definition cutoff (now : datetime) (hours : Z) : Z := now - hours * us_per_hour.

(** The datetime a stored timestamp stands for. *)
Definition moment (reading : Reading.t) : datetime :=
  match fromisoformat (Reading.timestamp reading) with
  | Return d => d
  | Raise _ => datetime_min
  end.

(** A reading is recent when its timestamp is strictly after the cutoff. *)
Definition recent (cutoff_time : datetime) (reading : Reading.t) : bool :=
  match fromisoformat (Reading.timestamp reading) with
  | Return d => cutoff_time <? d
  | Raise _ => false
  end.

(** The filtered set: the recent readings, in the order of the store. *)
Definition window (readings : store) (cutoff_time : datetime) : list Reading.t :=
  filter (recent cutoff_time) (map snd readings).

(** Every stored timestamp is an ISO string, as [add_reading] writes them. *)
Definition well_formed (readings : store) : Prop :=
  Forall (fun item => exists d, fromisoformat (Reading.timestamp (snd item)) = Return d)
         readings.

(** A request that has a filtered set holding a reading: the clock and the
    cutoff are datetimes, the stored timestamps are ISO strings, and some
    stored reading is recent. *)
Definition answerable (readings : store) (now : datetime) (hours : Z) : Prop :=
  well_formed readings /\
  datetime_in_range now = true /\
  datetime_in_range (cutoff now hours) = true /\
  window readings (cutoff now hours) <> [].

(** A reading as a row [(timestamp, temperature, humidity)] of
    [sorted_data], and the rows of a filtered set by ascending timestamp
    (line 139). *)
Definition row (reading : Reading.t) : datetime * num * num :=
  (moment reading, Reading.temperature reading, Reading.humidity reading).

Definition by_timestamp (rows : list (datetime * num * num)) : list (datetime * num * num) :=
  Builtins.sorted Z.ltb (fun x => fst (fst x)) rows.

(** [sorted_data] for a request: the rows of its filtered set. *)
Definition sorted_data (readings : store) (now : datetime) (hours : Z)
  : list (datetime * num * num) :=
  by_timestamp (map row (window readings (cutoff now hours))).

Definition row_temperature (x : datetime * num * num) : num := snd (fst x).
Definition row_humidity (x : datetime * num * num) : num := snd x.
Definition row_timestamp (x : datetime * num * num) : datetime := fst (fst x).

(** [|x - avg| > 2 * std], the deviation test in the words of the
    specification. *)
Definition beyond_two_sigma (x avg std : num) : bool :=
  num_gt (num_abs (num_sub x avg)) (num_mul (of_int 2) std).

(** The anomaly test and the anomaly entry of a row, as the specification
    words them: a row qualifies when its temperature or its humidity is
    more than two standard deviations from the mean; the reason names the
    temperature whenever the temperature qualifies. *)
Definition qualifies (avg_temp temp_std avg_humidity humidity_std : num)
    (x : datetime * num * num) : bool :=
  beyond_two_sigma (row_temperature x) avg_temp temp_std
  || beyond_two_sigma (row_humidity x) avg_humidity humidity_std.

Definition entry (avg_temp temp_std : num) (x : datetime * num * num) : Anomaly.t :=
  Anomaly.mk (row_temperature x) (row_humidity x) (isoformat (row_timestamp x))
    (if beyond_two_sigma (row_temperature x) avg_temp temp_std
     then "Temperature spike" else "Humidity spike").

(** The flagged entries: the entries of the qualifying rows, in the order of
    the rows. *)
Definition flagged (avg_temp temp_std avg_humidity humidity_std : num)
    (rows : list (datetime * num * num)) : list Anomaly.t :=
  map (entry avg_temp temp_std)
      (filter (qualifies avg_temp temp_std avg_humidity humidity_std) rows).

(** The two contributions to the comfort score and the level of a score, as
    the specification tabulates them. *)
Definition temperature_contribution (avg_temp : num) : Z * string :=
  if num_le (of_int 18) avg_temp && num_le avg_temp (of_int 24)
  then (50, "Optimal temperature")
  else if num_le (of_int 15) avg_temp && num_le avg_temp (of_int 30)
  then (25, "Acceptable temperature")
  else (0, "Outside comfort zone").

Definition humidity_contribution (avg_humidity : num) : Z * string :=
  if num_le (of_int 40) avg_humidity && num_le avg_humidity (of_int 60)
  then (50, "Optimal humidity")
  else if num_le (of_int 30) avg_humidity && num_le avg_humidity (of_int 70)
  then (25, "Acceptable humidity")
  else (0, "Outside comfort zone").

(** [round(., 2)] rounds to two decimals, in the words of the
    specification: with [exact] giving the rational a number stands for and
    [num_div] the division of numbers, [round(x, 2)] is [k / 100] for an
    integer [k] nearest to a hundred times [x]. *)
Definition rounds_to_two_decimals (exact : num -> Q) (num_div : num -> num -> num) : Prop :=
  forall x,
    exists k : Z,
      (Qabs (inject_Z k - 100 * exact x) <= 1 # 2)%Q /\
      round x 2 = num_div (of_int k) (of_int 100).

(** [y] is [x] rounded to two decimals. *)
Definition two_decimals_of (exact : num -> Q) (num_div : num -> num -> num) (x y : num)
  : Prop :=
  exists k : Z,
    (Qabs (inject_Z k - 100 * exact x) <= 1 # 2)%Q /\
    y = num_div (of_int k) (of_int 100).

Definition level_of (score : Z) : string :=
  if 80 <=? score then "Excellent"
  else if 60 <=? score then "Good"
  else if 40 <=? score then "Fair"
  else "Poor".

End Endpoints.

(** ** An implementation of the interface over exact rationals *)

(** Numbers are rationals in lowest terms; [mean] is exact, [stdev] is the
    square root of the sample variance rounded down to six decimals; the
    datetime functions read and write the two layouts [isoformat] produces,
    [YYYY-MM-DDTHH:MM:SS] and [YYYY-MM-DDTHH:MM:SS.ffffff]. *)
Module QNum.

Definition of_int (z : Z) : Q := inject_Z z.
Definition le (x y : Q) : bool := Qle_bool x y.
Definition lt (x y : Q) : bool := negb (Qle_bool y x).
Definition sub (x y : Q) : Q := Qred (x - y).
Definition mul (x y : Q) : Q := Qred (x * y).
Definition abs (x : Q) : Q := Qred (Qabs x).
Definition div (x y : Q) : Q := Qred (x / y).

Definition sum (l : list Q) : Q := fold_left Qplus l 0%Q.

Definition count (l : list Q) : Q := inject_Z (Z.of_nat (length l)).

Definition mean (l : list Q) : result Q :=
  match l with
  | [] => Raise StatisticsError
  | _ :: _ => Return (Qred (sum l / count l))
  end.

(** The square root of a nonnegative rational, rounded down to six
    decimals. *)
Definition sqrt (x : Q) : Q :=
  Qred (Z.sqrt (Qfloor (x * inject_Z (10 ^ 12))) # 1000000).

Definition stdev (l : list Q) : result Q :=
  match l with
  | [] | [_] => Raise StatisticsError
  | _ :: _ :: _ =>
      let m := (sum l / count l)%Q in
      let ss := sum (map (fun x => ((x - m) * (x - m))%Q) l) in
      Return (sqrt (ss / (count l - 1)))
  end.

(** [round(x, ndigits)] for [ndigits >= 0]: to the nearest multiple of
    [10 ^ -ndigits], a tie to the even one. *)
Definition round (x : Q) (ndigits : Z) : Q :=
  let scaled := (x * inject_Z (10 ^ ndigits))%Q in
  let f := Qfloor scaled in
  let n :=
    match Qcompare (scaled - inject_Z f) (1 # 2) with
    | Lt => f
    | Gt => f + 1
    | Eq => if Z.even f then f else f + 1
    end in
  Qred (inject_Z n / inject_Z (10 ^ ndigits)).

End QNum.

Module IsoFormat.

Definition is_leap (year : Z) : bool :=
  (year mod 4 =? 0) && (negb (year mod 100 =? 0) || (year mod 400 =? 0)).

Definition days_in_month (year month : Z) : Z :=
  if month =? 2 then (if is_leap year then 29 else 28)
  else if (month =? 4) || (month =? 6) || (month =? 9) || (month =? 11) then 30
  else 31.

(** The days of [year] before the first of [month]. *)
Definition days_before_month (year month : Z) : Z :=
  fold_left (fun acc m => acc + days_in_month year (Z.of_nat m))
            (seq 1 (Z.to_nat (month - 1))) 0.

(** The days from 0001-01-01 to the first of January of [year]. *)
Definition days_before_year (year : Z) : Z :=
  let y := year - 1 in y * 365 + y / 4 - y / 100 + y / 400.

Definition digit (c : ascii) : option Z :=
  let n := Z.of_nat (nat_of_ascii c) in
  if (48 <=? n) && (n <=? 57) then Some (n - 48) else None.

(** Reads exactly [n] decimal digits. *)
Fixpoint digits (n : nat) (acc : Z) (s : string) : option (Z * string) :=
  match n with
  | O => Some (acc, s)
  | S n' =>
      match s with
      | String c s' =>
          match digit c with
          | Some d => digits n' (10 * acc + d) s'
          | None => None
          end
      | EmptyString => None
      end
  end.

(** Reads [n] digits, then the character [c] when one is given. *)
Definition field (n : nat) (c : option ascii) (s : string) : option (Z * string) :=
  match digits n 0 s, c with
  | Some (v, String c' s'), Some c0 => if Ascii.eqb c' c0 then Some (v, s') else None
  | Some (v, s'), None => Some (v, s')
  | _, _ => None
  end.

Definition parse (s : string) : option datetime :=
  match field 4 (Some "-"%char) s with
  | Some (year, s) =>
  match field 2 (Some "-"%char) s with
  | Some (month, s) =>
  match field 2 (Some "T"%char) s with
  | Some (day, s) =>
  match field 2 (Some ":"%char) s with
  | Some (hour, s) =>
  match field 2 (Some ":"%char) s with
  | Some (minute, s) =>
  match field 2 None s with
  | Some (second, s) =>
      let microsecond :=
        match s with
        | EmptyString => Some 0
        | String "."%char s' =>
            match digits 6 0 s' with
            | Some (us, EmptyString) => Some us
            | _ => None
            end
        | _ => None
        end in
      match microsecond with
      | Some us =>
          if (1 <=? year) && (1 <=? month) && (month <=? 12)
             && (1 <=? day) && (day <=? days_in_month year month)
             && (hour <? 24) && (minute <? 60) && (second <? 60)
          then Some ((days_before_year year + days_before_month year month + (day - 1))
                       * us_per_day
                     + ((hour * 60 + minute) * 60 + second) * 1000000 + us)
          else None
      | None => None
      end
  | None => None end
  | None => None end
  | None => None end
  | None => None end
  | None => None end
  | None => None end.

Definition fromisoformat (s : string) : result datetime :=
  match parse s with
  | Some d => Return d
  | None => Raise ValueError
  end.

(** [n] in decimal, on [width] digits. *)
Fixpoint pad (width : nat) (n : Z) (tail : string) : string :=
  match width with
  | O => tail
  | S w => pad w (n / 10) (String (ascii_of_nat (Z.to_nat (48 + n mod 10))) tail)
  end.

(** The year of the day [n] (counted from 0001-01-01) and the day's rank in
    that year. *)
Definition year_of_day (n : Z) : Z * Z :=
  let n400 := n / 146097 in
  let n := n mod 146097 in
  let n100 := n / 36524 in
  let n := n mod 36524 in
  let n4 := n / 1461 in
  let n := n mod 1461 in
  let n1 := n / 365 in
  let n := n mod 365 in
  let year := n400 * 400 + 1 + n100 * 100 + n4 * 4 + n1 in
  if (n1 =? 4) || (n100 =? 4) then (year - 1, 365) else (year, n).

(** The month holding the day of rank [n] of [year], searched from
    January. *)
Fixpoint month_of_day (fuel : nat) (year month n : Z) : Z * Z :=
  match fuel with
  | O => (month, n)
  | S fuel' =>
      if n <? days_in_month year month then (month, n)
      else month_of_day fuel' year (month + 1) (n - days_in_month year month)
  end.

Definition isoformat (d : datetime) : string :=
  let '(year, n) := year_of_day (d / us_per_day) in
  let '(month, day0) := month_of_day 11 year 1 n in
  let us := d mod us_per_day in
  let second := us / 1000000 in
  pad 4 year (String "-" (pad 2 month (String "-" (pad 2 (day0 + 1) (String "T"
    (pad 2 (second / 3600) (String ":" (pad 2 (second / 60 mod 60) (String ":"
      (pad 2 (second mod 60)
         (if us mod 1000000 =? 0 then EmptyString
          else String "." (pad 6 (us mod 1000000) EmptyString)))))))))))).

End IsoFormat.

(** ** The rational implementation satisfies the interface *)

Lemma QNum_lt_irrefl (x : Q) : QNum.lt x x = false.
Proof.
  unfold QNum.lt.
  replace (Qle_bool x x) with true; [reflexivity|].
  symmetry. apply Qle_bool_iff. apply Qle_refl.
Qed.

Lemma QNum_lt_iff (x y : Q) : QNum.lt x y = true <-> (x < y)%Q.
Proof.
  unfold QNum.lt. rewrite negb_true_iff. split.
  - intros Hle. apply Qnot_le_lt. intro Hc.
    apply Qle_bool_iff in Hc. congruence.
  - intros Hlt. destruct (Qle_bool y x) eqn:E; [|reflexivity].
    apply Qle_bool_iff in E. exfalso. exact (Qlt_not_le _ _ Hlt E).
Qed.

Lemma QNum_lt_trans (x y z : Q) :
  QNum.lt x y = true -> QNum.lt y z = true -> QNum.lt x z = true.
Proof.
  rewrite !QNum_lt_iff. apply Qlt_trans.
Qed.

Lemma QNum_mean_cons (x : Q) (l : list Q) : exists m, QNum.mean (x :: l) = Return m.
Proof. eexists. reflexivity. Qed.

Lemma QNum_stdev_short (l : list Q) :
  (length l < 2)%nat -> QNum.stdev l = Raise StatisticsError.
Proof.
  destruct l as [|x [|y l]]; simpl; intros Hlen; try reflexivity; lia.
Qed.

Lemma QNum_stdev_cons (x y : Q) (l : list Q) :
  exists s, QNum.stdev (x :: y :: l) = Return s.
Proof. eexists. reflexivity. Qed.

(** [QNum.round] rounds to two decimals: to [k / 100] with [k] an integer
    nearest to a hundred times its argument. *)
Lemma QNum_round_two_decimals (x : Q) :
  exists k : Z,
    (Qabs (inject_Z k - 100 * x) <= 1 # 2)%Q /\
    QNum.round x 2 = QNum.div (QNum.of_int k) (QNum.of_int 100).
Proof.
  unfold QNum.round, QNum.div, QNum.of_int.
  change (10 ^ 2) with 100.
  set (scaled := (x * inject_Z 100)%Q).
  set (f := Qfloor scaled).
  assert (Hscaled : (scaled == 100 * x)%Q) by (unfold scaled; ring).
  assert (Hlow : (inject_Z f <= scaled)%Q) by apply Qfloor_le.
  assert (Hhigh : (scaled < inject_Z f + 1)%Q).
  { pose proof (Qlt_floor scaled) as Hlt. fold f in Hlt.
    rewrite inject_Z_plus in Hlt. exact Hlt. }
  change (inject_Z 1) with 1%Q in Hhigh.
  clearbody f. clearbody scaled.
  destruct (Qcompare (scaled - inject_Z f) (1 # 2)) eqn:Ecmp.
  - apply Qeq_alt in Ecmp. destruct (Z.even f).
    + exists f. split; [|reflexivity]. apply Qabs_Qle_condition. split; lra.
    + exists (f + 1). split; [|reflexivity]. rewrite inject_Z_plus.
      change (inject_Z 1) with 1%Q. apply Qabs_Qle_condition. split; lra.
  - apply Qlt_alt in Ecmp. exists f. split; [|reflexivity].
    apply Qabs_Qle_condition. split; lra.
  - apply Qgt_alt in Ecmp. exists (f + 1). split; [|reflexivity].
    rewrite inject_Z_plus. change (inject_Z 1) with 1%Q.
    apply Qabs_Qle_condition. split; lra.
Qed.

Definition QLib : PyLib := {|
  num := Q;
  of_int := QNum.of_int;
  num_le := QNum.le;
  num_lt := QNum.lt;
  num_sub := QNum.sub;
  num_mul := QNum.mul;
  num_abs := QNum.abs;
  round := QNum.round;
  mean := QNum.mean;
  stdev := QNum.stdev;
  fromisoformat := IsoFormat.fromisoformat;
  isoformat := IsoFormat.isoformat;
  num_lt_irrefl := QNum_lt_irrefl;
  num_lt_trans := QNum_lt_trans;
  mean_empty := eq_refl;
  mean_cons := QNum_mean_cons;
  stdev_short := QNum_stdev_short;
  stdev_cons := QNum_stdev_cons
|}.

(** ** Concrete stores *)

Module Example.

(** 2024-01-15T12:00:00, the clock of the examples. *)
Definition now : datetime := 63840916800000000.

Definition reading (temperature humidity : Q) (timestamp : string) : @Reading.t QLib :=
  @Reading.mk QLib temperature humidity timestamp.

(** One reading in the last day. *)
Definition single : @store QLib :=
  [("-Nk0", reading (43 # 2) 45 "2024-01-15T10:30:00")].

(** Six readings of the last day, stored out of order, after one of the
    week before. *)
Definition week : @store QLib :=
  [("-Nk0", reading 19 41 "2024-01-08T09:00:00");
   ("-Nk1", reading 20 50 "2024-01-15T06:00:00");
   ("-Nk2", reading 20 50 "2024-01-15T07:00:00");
   ("-Nk3", reading 80 50 "2024-01-15T11:00:00.250000");
   ("-Nk4", reading 20 50 "2024-01-15T08:00:00");
   ("-Nk5", reading 20 50 "2024-01-15T09:00:00");
   ("-Nk6", reading 20 50 "2024-01-15T10:00:00")].

(** Sixteen readings of the last day, one a minute: three temperature
    spikes, then three humidity spikes, then ten quiet readings. *)
Definition minute (k : nat) (temperature humidity : Q) : string * @Reading.t QLib :=
  (IsoFormat.pad 2 (Z.of_nat k) "-Nm",
   reading temperature humidity
     (IsoFormat.isoformat (now - 3600000000 + Z.of_nat k * 60000000))).

Definition spikes : @store QLib :=
  [minute 0 100 40; minute 1 100 40; minute 2 100 40;
   minute 3 20 90; minute 4 20 90; minute 5 20 90]
  ++ map (fun k => minute k 20 40) (seq 6 10).

(** Twenty readings of the last day, one a minute, with means 20.75 and
    50.1: at minute 3 a temperature far below the mean, at minute 4 a
    temperature and a humidity a little above their means, at minute 5 a
    temperature and a humidity far above their means, at minute 6 a
    humidity far below the mean; the others are quiet. *)
Definition swings : @store QLib :=
  map (fun k => minute k 20 50) (seq 0 3)
  ++ [minute 3 (-40) 50; minute 4 25 52; minute 5 90 95; minute 6 20 5]
  ++ map (fun k => minute k 20 50) (seq 7 13).

(** Single readings of the last day below, between and above the comfort
    bounds. *)
Definition cold : @store QLib := [minute 0 10 20].
Definition cool : @store QLib := [minute 0 16 35].
Definition warm : @store QLib := [minute 0 27 65].
Definition hot : @store QLib := [minute 0 35 80].

End Example.

(** ** Facts about the builtins *)

Section SortedFacts.
Context {A K : Type} (ltb : K -> K -> bool) (key : A -> K).
Hypothesis ltb_asym : forall a b, ltb a b = true -> ltb b a = false.
Hypothesis ltb_negtrans :
  forall a b c, ltb b a = false -> ltb c b = false -> ltb c a = false.

(** [x] may stand before [y]: the key of [y] is not smaller. *)
Definition ascending (x y : A) : Prop := ltb (key y) (key x) = false.

Lemma insert_perm (x : A) (l : list A) :
  Permutation (Builtins.insert ltb key x l) (x :: l).
Proof.
  induction l as [|y l IH]; simpl.
  - apply Permutation_refl.
  - destruct (ltb (key y) (key x)).
    + apply perm_trans with (y :: x :: l).
      * apply perm_skip, IH.
      * apply perm_swap.
    + apply Permutation_refl.
Qed.

Lemma sorted_perm (l : list A) : Permutation (Builtins.sorted ltb key l) l.
Proof.
  induction l as [|x l IH]; simpl.
  - constructor.
  - apply perm_trans with (x :: Builtins.sorted ltb key l).
    + apply insert_perm.
    + apply perm_skip, IH.
Qed.

Lemma sorted_length (l : list A) : length (Builtins.sorted ltb key l) = length l.
Proof. apply Permutation_length, sorted_perm. Qed.

Lemma insert_ascending (x : A) (l : list A) :
  StronglySorted ascending l -> StronglySorted ascending (Builtins.insert ltb key x l).
Proof.
  induction 1 as [|y l Hs IH Hy]; simpl.
  - constructor; constructor.
  - destruct (ltb (key y) (key x)) eqn:E.
    + constructor; [exact IH|].
      apply Forall_forall. intros z Hz.
      apply (Permutation_in _ (insert_perm x l)) in Hz.
      destruct Hz as [<-|Hz].
      * apply ltb_asym, E.
      * rewrite Forall_forall in Hy. apply Hy, Hz.
    + constructor.
      * constructor; assumption.
      * constructor; [exact E|].
        rewrite Forall_forall in Hy |- *. intros z Hz.
        unfold ascending. apply ltb_negtrans with (key y); [exact E|].
        apply Hy, Hz.
Qed.

Lemma sorted_ascending (l : list A) : StronglySorted ascending (Builtins.sorted ltb key l).
Proof.
  induction l as [|x l IH]; simpl.
  - constructor.
  - apply insert_ascending, IH.
Qed.

End SortedFacts.

Lemma Z_ltb_asym (a b : Z) : (a <? b) = true -> (b <? a) = false.
Proof. intros Hab. apply Z.ltb_lt in Hab. apply Z.ltb_ge. lia. Qed.

Lemma Z_ltb_negtrans (a b c : Z) :
  (b <? a) = false -> (c <? b) = false -> (c <? a) = false.
Proof. rewrite !Z.ltb_ge. lia. Qed.

Lemma ascii_compare_trans (a b c : ascii) (o : comparison) :
  Ascii.compare a b = o -> Ascii.compare b c = o -> Ascii.compare a c = o.
Proof.
  unfold Ascii.compare. intros Hab Hbc. destruct o.
  - apply N.compare_eq_iff in Hab, Hbc. apply N.compare_eq_iff. congruence.
  - rewrite N.compare_lt_iff in *. lia.
  - rewrite N.compare_gt_iff in *. lia.
Qed.

(** [<=] on strings, read off [String.compare], is transitive. *)
Lemma string_compare_le_trans (a b c : string) :
  String.compare a b <> Gt -> String.compare b c <> Gt -> String.compare a c <> Gt.
Proof.
  revert b c. induction a as [|x a IH]; intros [|y b] [|z c]; simpl;
    try congruence.
  destruct (Ascii.compare x y) eqn:Exy; destruct (Ascii.compare y z) eqn:Eyz;
    try congruence; intros Hab Hbc.
  - rewrite (ascii_compare_trans x y z Eq Exy Eyz). apply IH with b; assumption.
  - apply Ascii.compare_eq_iff in Exy. subst y. rewrite Eyz. congruence.
  - apply Ascii.compare_eq_iff in Eyz. subst z. rewrite Exy. congruence.
  - rewrite (ascii_compare_trans x y z Lt Exy Eyz). congruence.
Qed.

Lemma string_ltb_asym (a b : string) :
  String.ltb a b = true -> String.ltb b a = false.
Proof.
  unfold String.ltb. rewrite (String.compare_antisym b a).
  destruct (String.compare a b); simpl; congruence.
Qed.

Lemma string_ltb_negtrans (a b c : string) :
  String.ltb b a = false -> String.ltb c b = false -> String.ltb c a = false.
Proof.
  unfold String.ltb. intros Hba Hcb.
  assert (Hab : String.compare a b <> Gt).
  { rewrite String.compare_antisym. destruct (String.compare b a); simpl; congruence. }
  assert (Hbc : String.compare b c <> Gt).
  { rewrite String.compare_antisym. destruct (String.compare c b); simpl; congruence. }
  pose proof (string_compare_le_trans a b c Hab Hbc) as Hac.
  rewrite String.compare_antisym. destruct (String.compare a c); simpl; congruence.
Qed.

Section Facts.
Context `{PyLib}.

(** [max] returns an element that no element exceeds. *)
Lemma max_spec (l : list num) :
  l <> [] ->
  exists m, Builtins.max l = Return m /\ In m l /\
            forall x, In x l -> num_gt x m = false.
Proof.
  destruct l as [|x0 xs]; [congruence|]. intros _. simpl.
  eexists. split; [reflexivity|].
  assert (Hgen : forall ys m0,
             let m := fold_left (fun maxval item => if num_gt item maxval then item else maxval)
                                ys m0 in
             (m = m0 \/ In m ys) /\
             (forall x, num_gt x m0 = false -> num_gt x m = false) /\
             (forall x, In x ys -> num_gt x m = false)).
  { induction ys as [|y ys IH]; intros m0; simpl.
    - repeat split; auto. intros x [].
    - destruct (num_gt y m0) eqn:E.
      + destruct (IH y) as (Hin & Hkeep & Hall). repeat split.
        * destruct Hin as [->|Hin]; auto.
        * intros x Hx. apply Hkeep. unfold num_gt in *.
          destruct (num_lt y x) eqn:Eyx; [|reflexivity].
          rewrite (num_lt_trans _ _ _ E Eyx) in Hx. discriminate.
        * intros x [<-|Hx]; [|apply Hall, Hx].
          apply Hkeep. unfold num_gt. apply num_lt_irrefl.
      + destruct (IH m0) as (Hin & Hkeep & Hall). repeat split.
        * destruct Hin as [->|Hin]; auto.
        * exact Hkeep.
        * intros x [<-|Hx]; [apply Hkeep, E|apply Hall, Hx]. }
  destruct (Hgen xs x0) as (Hin & Hkeep & Hall). split.
  - destruct Hin as [->|Hin]; [left; reflexivity|right; exact Hin].
  - intros x [<-|Hx]; [|apply Hall, Hx].
    apply Hkeep. unfold num_gt. apply num_lt_irrefl.
Qed.

(** [min] returns an element that exceeds no element. *)
Lemma min_spec (l : list num) :
  l <> [] ->
  exists m, Builtins.min l = Return m /\ In m l /\
            forall x, In x l -> num_lt x m = false.
Proof.
  destruct l as [|x0 xs]; [congruence|]. intros _. simpl.
  eexists. split; [reflexivity|].
  assert (Hgen : forall ys m0,
             let m := fold_left (fun minval item => if num_lt item minval then item else minval)
                                ys m0 in
             (m = m0 \/ In m ys) /\
             (forall x, num_lt x m0 = false -> num_lt x m = false) /\
             (forall x, In x ys -> num_lt x m = false)).
  { induction ys as [|y ys IH]; intros m0; simpl.
    - repeat split; auto. intros x [].
    - destruct (num_lt y m0) eqn:E.
      + destruct (IH y) as (Hin & Hkeep & Hall). repeat split.
        * destruct Hin as [->|Hin]; auto.
        * intros x Hx. apply Hkeep.
          destruct (num_lt x y) eqn:Exy; [|reflexivity].
          rewrite (num_lt_trans _ _ _ Exy E) in Hx. discriminate.
        * intros x [<-|Hx]; [|apply Hall, Hx].
          apply Hkeep. apply num_lt_irrefl.
      + destruct (IH m0) as (Hin & Hkeep & Hall). repeat split.
        * destruct Hin as [->|Hin]; auto.
        * exact Hkeep.
        * intros x [<-|Hx]; [apply Hkeep, E|apply Hall, Hx]. }
  destruct (Hgen xs x0) as (Hin & Hkeep & Hall). split.
  - destruct Hin as [->|Hin]; [left; reflexivity|right; exact Hin].
  - intros x [<-|Hx]; [|apply Hall, Hx].
    apply Hkeep. apply num_lt_irrefl.
Qed.

Lemma zip_map {R A B C : Type} (f : R -> A) (g : R -> B) (h : R -> C) (l : list R) :
  Builtins.zip (map f l) (map g l) (map h l) = map (fun r => (f r, g r, h r)) l.
Proof.
  induction l as [|r l IH]; simpl; [reflexivity|]. now rewrite IH.
Qed.

End Facts.

(** ** Running the endpoints *)

Lemma bind_Return {A B : Type} (m : result A) (k : A -> result B) (b : B) :
  bind m k = Return b -> exists a, m = Return a /\ k a = Return b.
Proof.
  destruct m as [a|e]; simpl; [|discriminate]. intros Hk. now exists a.
Qed.

Lemma except_http_Return {A : Type} (m : result A) (a : A) :
  except_http m = Return a -> m = Return a.
Proof.
  destruct m as [a'|[c d| | |]]; simpl; congruence.
Qed.

Tactic Notation "bind_inv" hyp(H) "as" ident(a) ident(Ha) :=
  apply bind_Return in H; destruct H as (a & Ha & H).

Section Runs.
Context `{PyLib}.

(** The loop of [get_analysis] collects the three columns of the filtered
    set, provided every timestamp parses. *)
Lemma analysis_loop (cutoff_time : datetime) (readings : store) :
  well_formed readings ->
  forall temps humidities timestamps,
    for_each (get_analysis_body cutoff_time) readings (temps, humidities, timestamps)
    = Return (temps ++ map Reading.temperature (window readings cutoff_time),
              humidities ++ map Reading.humidity (window readings cutoff_time),
              timestamps ++ map moment (window readings cutoff_time)).
Proof.
  unfold window. induction 1 as [|[key reading] readings (d & Hd) _ IH];
    intros temps humidities timestamps; simpl.
  - now rewrite !app_nil_r.
  - simpl in Hd.
    assert (Hr : recent cutoff_time reading = (cutoff_time <? d))
      by (unfold recent; now rewrite Hd).
    assert (Hm : moment reading = d) by (unfold moment; now rewrite Hd).
    cbn [for_each map snd filter]. rewrite Hr.
    unfold get_analysis_body at 1. cbn [snd]. rewrite Hd. cbn [bind].
    destruct (cutoff_time <? d); cbn [bind map]; rewrite IH, ?Hm, <- ?app_assoc;
      reflexivity.
Qed.

(** When the loop ends without an exception, every timestamp parsed. *)
Lemma analysis_loop_well_formed (cutoff_time : datetime) (readings : store) :
  forall acc acc',
    for_each (get_analysis_body cutoff_time) readings acc = Return acc' ->
    well_formed readings.
Proof.
  induction readings as [|[key reading] readings IH]; intros acc acc' Hrun.
  - constructor.
  - simpl in Hrun. bind_inv Hrun as acc1 Hbody.
    destruct acc as [[temps humidities] timestamps].
    unfold get_analysis_body in Hbody. simpl in Hbody. bind_inv Hbody as d Hd.
    constructor; [now exists d|]. eapply IH, Hrun.
Qed.

(** The loop of [get_readings] collects the filtered set itself. *)
Lemma readings_loop (cutoff_time : datetime) (readings : store) :
  well_formed readings ->
  forall filtered_readings,
    for_each (get_readings_body cutoff_time) readings filtered_readings
    = Return (filtered_readings ++ window readings cutoff_time).
Proof.
  unfold window. induction 1 as [|[key reading] readings (d & Hd) _ IH];
    intros filtered_readings; simpl.
  - now rewrite app_nil_r.
  - simpl in Hd.
    assert (Hr : recent cutoff_time reading = (cutoff_time <? d))
      by (unfold recent; now rewrite Hd).
    cbn [for_each map snd filter]. rewrite Hr.
    unfold get_readings_body at 1. cbn [snd]. rewrite Hd. cbn [bind].
    destruct (cutoff_time <? d); cbn [bind]; rewrite IH; [|reflexivity].
    destruct reading. cbn. now rewrite <- app_assoc.
Qed.

(** The cutoff of a request is computed whenever it is a datetime. *)
Lemma cutoff_computed (now : datetime) (hours : Z) :
  datetime_in_range now = true ->
  datetime_in_range (cutoff now hours) = true ->
  cutoff_time_of now hours = Return (cutoff now hours).
Proof.
  unfold cutoff_time_of, datetime_in_range, cutoff, timedelta_hours, datetime_sub,
    datetime_min, datetime_max, us_per_day, us_per_hour.
  rewrite !andb_true_iff, !Z.leb_le. intros [Hn0 Hn1] [Hc0 Hc1].
  assert (Hd : (Z.abs (hours / 24) <=? 999999999) = true).
  { apply Z.leb_le.
    assert (-87649416 <= hours <= 87649416) by lia.
    assert (-87649416 / 24 <= hours / 24) by (apply Z.div_le_mono; lia).
    assert (hours / 24 <= 87649416 / 24) by (apply Z.div_le_mono; lia).
    change (-87649416 / 24) with (-3652059) in *.
    change (87649416 / 24) with 3652059 in *. lia. }
  rewrite Hd. simpl.
  unfold datetime_in_range, datetime_min, datetime_max, us_per_day.
  replace ((0 <=? now - hours * 3600000000)
           && (now - hours * 3600000000 <=? 3652059 * 86400000000 - 1)) with true.
  - reflexivity.
  - symmetry. rewrite andb_true_iff, !Z.leb_le. lia.
Qed.

(** The cutoff of a request raises [OverflowError] whenever it is no
    datetime. *)
Lemma cutoff_overflow (now : datetime) (hours : Z) :
  datetime_in_range (cutoff now hours) = false ->
  cutoff_time_of now hours = Raise OverflowError.
Proof.
  unfold cutoff_time_of, timedelta_hours, datetime_sub, cutoff. intros Hc.
  destruct (Z.abs (hours / 24) <=? 999999999); simpl; [|reflexivity].
  now rewrite Hc.
Qed.

(** A computed cutoff is the datetime [cutoff now hours]. *)
Lemma cutoff_Return (now : datetime) (hours : Z) (c : datetime) :
  cutoff_time_of now hours = Return c ->
  c = cutoff now hours /\ datetime_in_range (cutoff now hours) = true.
Proof.
  unfold cutoff_time_of, timedelta_hours, datetime_sub, cutoff.
  destruct (Z.abs (hours / 24) <=? 999999999); simpl; [|discriminate].
  destruct (datetime_in_range (now - hours * us_per_hour)) eqn:E; [|discriminate].
  intros [= <-]. now split.
Qed.

End Runs.

Section AnalysisFacts.
Context `{PyLib}.

Lemma mean_nonempty (l : list num) : l <> [] -> exists m, mean l = Return m.
Proof. destruct l as [|x l]; [congruence|]. intros _. apply mean_cons. Qed.

Lemma stdev_enough (l : list num) : (2 < length l)%nat -> exists s, stdev l = Return s.
Proof.
  destruct l as [|x [|y l]]; simpl; try lia. intros _. apply stdev_cons.
Qed.

(** Both halves of two or more rows hold a row. *)
Lemma halves_nonempty {D : Type} (rows : list D) :
  (1 < length rows)%nat ->
  firstn (length rows / 2) rows <> [] /\ skipn (length rows / 2) rows <> [].
Proof.
  intros Hn.
  assert (Hhalf : (1 <= length rows / 2 < length rows)%nat).
  { split.
    - apply Nat.div_le_lower_bound; lia.
    - apply Nat.div_lt; lia. }
  split; intros Hnil.
  - apply (f_equal (@length D)) in Hnil. rewrite length_firstn in Hnil.
    cbn [length] in Hnil. lia.
  - apply (f_equal (@length D)) in Hnil. rewrite length_skipn in Hnil.
    cbn [length] in Hnil. lia.
Qed.

(** One trend of two or more rows: both means exist and are compared
    strictly. *)
Lemma half_trend_runs {D : Type} (column : D -> num) (rows : list D) :
  (1 < length rows)%nat ->
  exists mean_first mean_second,
    mean (map column (firstn (length rows / 2) rows)) = Return mean_first /\
    mean (map column (skipn (length rows / 2) rows)) = Return mean_second /\
    half_trend column rows
    = Return (if num_gt mean_second mean_first then "↑ Rising" else "↓ Falling").
Proof.
  intros Hn. destruct (halves_nonempty rows Hn) as [Hfirst Hsecond].
  destruct (mean_nonempty (map column (firstn (length rows / 2) rows))) as [m1 Hm1].
  { intros Hnil. apply map_eq_nil in Hnil. contradiction. }
  destruct (mean_nonempty (map column (skipn (length rows / 2) rows))) as [m2 Hm2].
  { intros Hnil. apply map_eq_nil in Hnil. contradiction. }
  exists m1, m2. repeat split; try assumption.
  unfold half_trend. cbv zeta. rewrite Hm2, Hm1. reflexivity.
Qed.

(** The anomaly loop keeps the qualifying rows, in order, as entries. *)
Lemma anomaly_loop (avg_temp temp_std avg_humidity humidity_std : num)
    (rows : list (datetime * num * num)) :
  forall anomalies,
    fold_left (anomaly_body avg_temp temp_std avg_humidity humidity_std) rows anomalies
    = anomalies ++
      map (entry avg_temp temp_std)
          (filter (qualifies avg_temp temp_std avg_humidity humidity_std) rows).
Proof.
  induction rows as [|[[ts temp] hum] rows IH]; intros anomalies; simpl.
  - now rewrite app_nil_r.
  - rewrite IH. unfold qualifies at 2, beyond_two_sigma, row_temperature, row_humidity.
    simpl. fold (spike temp avg_temp temp_std). fold (spike hum avg_humidity humidity_std).
    destruct (spike temp avg_temp temp_std || spike hum avg_humidity humidity_std);
      simpl; [|reflexivity].
    now rewrite <- app_assoc.
Qed.

(** Anomaly detection: skipped for two readings or fewer; otherwise both
    standard deviations exist and the qualifying rows are kept. *)
Lemma detect_anomalies_runs (temps humidities : list num) (avg_temp avg_humidity : num)
    (rows : list (datetime * num * num)) :
  length humidities = length temps ->
  ((length temps <= 2)%nat ->
   detect_anomalies temps humidities avg_temp avg_humidity rows = Return []) /\
  ((2 < length temps)%nat ->
   exists temp_std humidity_std,
     stdev temps = Return temp_std /\
     stdev humidities = Return humidity_std /\
     detect_anomalies temps humidities avg_temp avg_humidity rows
     = Return (map (entry avg_temp temp_std)
                   (filter (qualifies avg_temp temp_std avg_humidity humidity_std) rows))).
Proof.
  intros Hlen. unfold detect_anomalies. split; intros Hn.
  - replace (2 <? length temps)%nat with false; [reflexivity|].
    symmetry. apply Nat.ltb_ge. exact Hn.
  - replace (2 <? length temps)%nat with true
      by (symmetry; apply Nat.ltb_lt; exact Hn).
    destruct (stdev_enough temps Hn) as [ts Hts].
    destruct (stdev_enough humidities) as [hs Hhs]; [lia|].
    exists ts, hs. rewrite Hts, Hhs. simpl. rewrite anomaly_loop. auto.
Qed.

(** The comfort analysis of the source is the specification's table. *)
Lemma comfort_analysis_table (avg_temp avg_humidity : num) :
  comfort_analysis avg_temp avg_humidity
  = Comfort.mk
      (level_of (fst (temperature_contribution avg_temp)
                 + fst (humidity_contribution avg_humidity)))
      (fst (temperature_contribution avg_temp) + fst (humidity_contribution avg_humidity))
      (snd (temperature_contribution avg_temp))
      (snd (humidity_contribution avg_humidity)).
Proof.
  unfold comfort_analysis, temperature_contribution, humidity_contribution.
  fold (between 18 avg_temp 24). fold (between 15 avg_temp 30).
  fold (between 40 avg_humidity 60). fold (between 30 avg_humidity 70).
  destruct (between 18 avg_temp 24), (between 15 avg_temp 30),
    (between 40 avg_humidity 60), (between 30 avg_humidity 70); reflexivity.
Qed.

End AnalysisFacts.

Section Requests.
Context `{PyLib}.

(** Trend detection never raises. *)
Lemma trends_runs (rows : list (datetime * num * num)) :
  exists t, trends rows = Return t.
Proof.
  unfold trends. destruct (1 <? length rows)%nat eqn:E.
  - apply Nat.ltb_lt in E.
    destruct (half_trend_runs (fun t => snd (fst t)) rows E) as (? & ? & _ & _ & ->).
    destruct (half_trend_runs (fun t => snd t) rows E) as (? & ? & _ & _ & ->).
    eexists. reflexivity.
  - eexists. reflexivity.
Qed.

(** The analysis of a filtered set that holds a reading: every step runs,
    and the result is assembled from the steps. *)
Lemma analyse_window (hours : Z) (w : list Reading.t) :
  w <> [] ->
  exists avg_temp avg_humidity max_temp min_temp max_humidity min_humidity
         temp_trend humidity_trend anomalies,
    mean (map Reading.temperature w) = Return avg_temp /\
    mean (map Reading.humidity w) = Return avg_humidity /\
    Builtins.max (map Reading.temperature w) = Return max_temp /\
    Builtins.min (map Reading.temperature w) = Return min_temp /\
    Builtins.max (map Reading.humidity w) = Return max_humidity /\
    Builtins.min (map Reading.humidity w) = Return min_humidity /\
    trends (by_timestamp (map row w)) = Return (temp_trend, humidity_trend) /\
    detect_anomalies (map Reading.temperature w) (map Reading.humidity w)
                     avg_temp avg_humidity (by_timestamp (map row w))
    = Return anomalies /\
    analyse hours (map Reading.temperature w) (map Reading.humidity w) (map moment w)
    = Return (Analysis.mk hours (Z.of_nat (length w))
                (Stats.mk (round avg_temp 2) (round max_temp 2) (round min_temp 2)
                          temp_trend)
                (Stats.mk (round avg_humidity 2) (round max_humidity 2)
                          (round min_humidity 2) humidity_trend)
                (comfort_analysis avg_temp avg_humidity)
                (firstn 5 anomalies)).
Proof.
  intros Hw.
  assert (Ht : map Reading.temperature w <> []).
  { intros Hnil. apply map_eq_nil in Hnil. contradiction. }
  assert (Hh : map Reading.humidity w <> []).
  { intros Hnil. apply map_eq_nil in Hnil. contradiction. }
  destruct (mean_nonempty _ Ht) as [avg_temp Eat].
  destruct (mean_nonempty _ Hh) as [avg_humidity Eah].
  destruct (max_spec _ Ht) as (max_temp & Emt & _).
  destruct (min_spec _ Ht) as (min_temp & Ent & _).
  destruct (max_spec _ Hh) as (max_humidity & Emh & _).
  destruct (min_spec _ Hh) as (min_humidity & Enh & _).
  destruct (trends_runs (by_timestamp (map row w))) as [[temp_trend humidity_trend] Etr].
  assert (Ean : exists anomalies,
             detect_anomalies (map Reading.temperature w) (map Reading.humidity w)
                              avg_temp avg_humidity (by_timestamp (map row w))
             = Return anomalies).
  { destruct (detect_anomalies_runs (map Reading.temperature w) (map Reading.humidity w)
                avg_temp avg_humidity (by_timestamp (map row w))) as [Hfew Hmany].
    - now rewrite !length_map.
    - destruct (le_lt_dec (length (map Reading.temperature w)) 2) as [Hle|Hlt].
      + eexists. apply Hfew, Hle.
      + destruct (Hmany Hlt) as (? & ? & _ & _ & ->). eexists. reflexivity. }
  destruct Ean as [anomalies Ean].
  exists avg_temp, avg_humidity, max_temp, min_temp, max_humidity, min_humidity,
    temp_trend, humidity_trend, anomalies.
  repeat (split; [assumption|]).
  unfold analyse. rewrite Eat, Eah, Emt, Ent, Emh, Enh. cbn [bind].
  rewrite zip_map. fold row. unfold by_timestamp in Etr, Ean.
  change (fun r : Reading.t => (moment r, Reading.temperature r, Reading.humidity r))
    with row.
  rewrite Etr. cbn [bind]. rewrite Ean. cbn [bind]. now rewrite length_map.
Qed.

(** A request that is answered: its cutoff is a datetime, every stored
    timestamp parsed, the filtered set holds a reading, and the answer is
    the analysis of the filtered set. *)
Lemma get_analysis_Return (readings : store) (now : datetime) (hours : Z)
    (r : Analysis.t) :
  get_analysis readings now hours = Return r ->
  datetime_in_range (cutoff now hours) = true /\
  well_formed readings /\
  window readings (cutoff now hours) <> [] /\
  analyse hours (map Reading.temperature (window readings (cutoff now hours)))
                (map Reading.humidity (window readings (cutoff now hours)))
                (map moment (window readings (cutoff now hours)))
  = Return r.
Proof.
  unfold get_analysis. intros Hrun. apply except_http_Return in Hrun.
  destruct readings as [|item readings]; [discriminate|].
  remember (item :: readings) as store0 eqn:Hstore. clear Hstore.
  bind_inv Hrun as c Hc. apply cutoff_Return in Hc. destruct Hc as [-> Hrange].
  bind_inv Hrun as acc Hloop. destruct acc as [[temps humidities] timestamps].
  pose proof (analysis_loop_well_formed _ _ _ _ Hloop) as Hwf.
  rewrite (analysis_loop _ _ Hwf) in Hloop. simpl in Hloop.
  injection Hloop as <- <- <-.
  repeat (split; [assumption|]).
  destruct (window store0 (cutoff now hours)) as [|x w] eqn:Ew.
  - discriminate.
  - split; [discriminate|]. exact Hrun.
Qed.

End Requests.

(** ** The answer to a request *)

Lemma StronglySorted_weaken {A : Type} (R S : A -> A -> Prop) (l : list A) :
  (forall x y, R x y -> S x y) -> StronglySorted R l -> StronglySorted S l.
Proof.
  intros HRS. induction 1 as [|x l Hs IH Hx]; constructor.
  - exact IH.
  - eapply Forall_impl; [|exact Hx]. intros y. apply HRS.
Qed.

Lemma StronglySorted_filter {A : Type} (R : A -> A -> Prop) (f : A -> bool) (l : list A) :
  StronglySorted R l -> StronglySorted R (filter f l).
Proof.
  induction 1 as [|x l Hs IH Hx]; simpl; [constructor|].
  destruct (f x); [|exact IH]. constructor; [exact IH|].
  rewrite Forall_forall in Hx |- *. intros y Hy. apply filter_In in Hy. apply Hx, Hy.
Qed.

Lemma StronglySorted_firstn {A : Type} (R : A -> A -> Prop) (n : nat) (l : list A) :
  StronglySorted R l -> StronglySorted R (firstn n l).
Proof.
  intros Hs. revert n. induction Hs as [|x l Hs IH Hx]; intros [|n]; simpl;
    try constructor.
  - apply IH.
  - rewrite Forall_forall in Hx |- *. intros y Hy. apply Hx.
    rewrite <- (firstn_skipn n l). apply in_or_app. now left.
Qed.

Section Answers.
Context `{PyLib}.

(** The rows of [sorted_data] are the rows of the filtered set, by
    ascending timestamp. *)
Lemma sorted_data_perm (readings : store) (now : datetime) (hours : Z) :
  Permutation (sorted_data readings now hours)
              (map row (window readings (cutoff now hours))).
Proof. apply sorted_perm. Qed.

Lemma sorted_data_ascending (readings : store) (now : datetime) (hours : Z) :
  StronglySorted (fun x y => row_timestamp x <= row_timestamp y)
                 (sorted_data readings now hours).
Proof.
  apply StronglySorted_weaken
    with (R := ascending Z.ltb (fun x : datetime * num * num => fst (fst x))).
  - unfold ascending, row_timestamp. intros x y Hxy. apply Z.ltb_ge in Hxy. exact Hxy.
  - apply sorted_ascending.
    + apply Z_ltb_asym.
    + apply Z_ltb_negtrans.
Qed.

Lemma sorted_data_length (readings : store) (now : datetime) (hours : Z) :
  length (sorted_data readings now hours)
  = length (window readings (cutoff now hours)).
Proof.
  unfold sorted_data, by_timestamp. now rewrite sorted_length, length_map.
Qed.

(** An answerable request is answered with the analysis of its filtered
    set. *)
Lemma get_analysis_answer (readings : store) (now : datetime) (hours : Z) :
  answerable readings now hours ->
  get_analysis readings now hours
  = analyse hours (map Reading.temperature (window readings (cutoff now hours)))
                  (map Reading.humidity (window readings (cutoff now hours)))
                  (map moment (window readings (cutoff now hours))).
Proof.
  intros (Hwf & Hnow & Hcut & Hw). unfold get_analysis.
  destruct readings as [|item readings]; [now contradiction Hw|].
  remember (item :: readings) as store0 eqn:Hstore. clear Hstore.
  rewrite (cutoff_computed _ _ Hnow Hcut). cbn [bind].
  rewrite (analysis_loop _ _ Hwf). cbn [bind app].
  destruct (analyse_window hours _ Hw)
    as (? & ? & ? & ? & ? & ? & ? & ? & ? & _ & _ & _ & _ & _ & _ & _ & _ & Hrun).
  rewrite Hrun.
  destruct (window store0 (cutoff now hours)) as [|reading0 w]; [contradiction|].
  reflexivity.
Qed.

(** Conversely, only answerable requests are answered. *)
Lemma answered_answerable (readings : store) (now : datetime) (hours : Z)
    (r : Analysis.t) :
  datetime_in_range now = true ->
  get_analysis readings now hours = Return r ->
  answerable readings now hours.
Proof.
  intros Hnow Hrun.
  destruct (get_analysis_Return _ _ _ _ Hrun) as (Hcut & Hwf & Hw & _).
  repeat split; assumption.
Qed.

End Answers.

(** ** Properties of the endpoints *)

Section Properties.
Context `{PyLib}.

(** The two trends of the answer to an answerable request are those of the
    rows of its filtered set. *)
Lemma trends_of_answer (readings : store) (now : datetime) (hours : Z) :
  answerable readings now hours ->
  exists r,
    get_analysis readings now hours = Return r /\
    trends (sorted_data readings now hours)
    = Return (Stats.trend (Analysis.temperature r), Stats.trend (Analysis.humidity r)).
Proof.
  intros Hreq. pose proof Hreq as (_ & _ & _ & Hw).
  rewrite (get_analysis_answer _ _ _ Hreq).
  destruct (analyse_window hours _ Hw)
    as (avg_temp & avg_humidity & max_temp & min_temp & max_humidity & min_humidity
        & temp_trend & humidity_trend & anomalies
        & _ & _ & _ & _ & _ & _ & Htrends & _ & ->).
  eexists. split; [reflexivity|]. exact Htrends.
Qed.

(** C1 (amended).  For an answerable request, whose filtered set sorted by
    ascending timestamp has [n] rows: when [n > 1] the rows are split at
    [n / 2] (the first half has [n / 2] rows, the second the other
    [n - n / 2], so the extra row of an odd [n] is in the second half), both
    half-means exist for each metric, and the trend of the metric is the
    string ["↑ Rising"] when the mean of the second half is strictly greater
    than the mean of the first half and ["↓ Falling"] otherwise, also when
    the two means are equal; when [n = 1] both trends are ["→ Stable"]. *)
Theorem trend_by_halves (readings : store) (now : datetime) (hours : Z) :
  answerable readings now hours ->
  let rows := sorted_data readings now hours in
  let n := length rows in
  exists r,
    get_analysis readings now hours = Return r /\
    Permutation rows (map row (window readings (cutoff now hours))) /\
    StronglySorted (fun x y => row_timestamp x <= row_timestamp y) rows /\
    (n = 1%nat ->
     Stats.trend (Analysis.temperature r) = "→ Stable" /\
     Stats.trend (Analysis.humidity r) = "→ Stable") /\
    ((1 < n)%nat ->
     length (firstn (n / 2) rows) = (n / 2)%nat /\
     length (skipn (n / 2) rows) = (n - n / 2)%nat /\
     exists first_temp second_temp first_hum second_hum,
       mean (map row_temperature (firstn (n / 2) rows)) = Return first_temp /\
       mean (map row_temperature (skipn (n / 2) rows)) = Return second_temp /\
       mean (map row_humidity (firstn (n / 2) rows)) = Return first_hum /\
       mean (map row_humidity (skipn (n / 2) rows)) = Return second_hum /\
       Stats.trend (Analysis.temperature r)
       = (if num_gt second_temp first_temp then "↑ Rising" else "↓ Falling") /\
       Stats.trend (Analysis.humidity r)
       = (if num_gt second_hum first_hum then "↑ Rising" else "↓ Falling") /\
       (second_temp = first_temp ->
        Stats.trend (Analysis.temperature r) = "↓ Falling") /\
       (second_hum = first_hum ->
        Stats.trend (Analysis.humidity r) = "↓ Falling")).
Proof.
  intros Hreq rows n.
  destruct (trends_of_answer _ _ _ Hreq) as (r & Hrun & Htrends).
  exists r. split; [exact Hrun|].
  split; [apply sorted_data_perm|]. split; [apply sorted_data_ascending|].
  fold rows in Htrends. unfold trends in Htrends. fold n in Htrends. split.
  - intros Hn. rewrite Hn in Htrends. cbn in Htrends. now injection Htrends as <- <-.
  - intros Hn.
    replace (1 <? n)%nat with true in Htrends by (symmetry; now apply Nat.ltb_lt).
    destruct (half_trend_runs (fun t => snd (fst t)) rows Hn)
      as (first_temp & second_temp & Hft & Hst & Htt).
    destruct (half_trend_runs (fun t => snd t) rows Hn)
      as (first_hum & second_hum & Hfh & Hsh & Hht).
    fold n in Hft, Hst, Hfh, Hsh.
    rewrite Htt, Hht in Htrends. cbn [bind] in Htrends.
    injection Htrends as <- <-.
    split; [rewrite length_firstn; fold n; apply Nat.min_l, Nat.Div0.div_le_upper_bound; lia|].
    split; [now rewrite length_skipn|].
    exists first_temp, second_temp, first_hum, second_hum.
    repeat (split; [assumption || reflexivity|]).
    split; intros ->; unfold num_gt; now rewrite num_lt_irrefl.
Qed.

(** The flagged entries of an answerable request with more than two
    readings, and the anomalies of its answer. *)
Lemma anomalies_of_answer (readings : store) (now : datetime) (hours : Z) :
  answerable readings now hours ->
  let w := window readings (cutoff now hours) in
  let rows := sorted_data readings now hours in
  exists r avg_temp avg_humidity,
    get_analysis readings now hours = Return r /\
    mean (map Reading.temperature w) = Return avg_temp /\
    mean (map Reading.humidity w) = Return avg_humidity /\
    ((length w <= 2)%nat -> Analysis.anomalies r = []) /\
    ((2 < length w)%nat ->
     exists temp_std humidity_std,
       stdev (map Reading.temperature w) = Return temp_std /\
       stdev (map Reading.humidity w) = Return humidity_std /\
       Analysis.anomalies r
       = firstn 5 (map (entry avg_temp temp_std)
                       (filter (qualifies avg_temp temp_std avg_humidity humidity_std)
                               rows))).
Proof.
  intros Hreq w rows. pose proof Hreq as (_ & _ & _ & Hw).
  rewrite (get_analysis_answer _ _ _ Hreq).
  destruct (analyse_window hours _ Hw)
    as (avg_temp & avg_humidity & max_temp & min_temp & max_humidity & min_humidity
        & temp_trend & humidity_trend & anomalies
        & Hat & Hah & _ & _ & _ & _ & _ & Hdetect & ->).
  exists (Analysis.mk hours (Z.of_nat (length (window readings (cutoff now hours))))
            (Stats.mk (round avg_temp 2) (round max_temp 2) (round min_temp 2) temp_trend)
            (Stats.mk (round avg_humidity 2) (round max_humidity 2)
                      (round min_humidity 2) humidity_trend)
            (comfort_analysis avg_temp avg_humidity)
            (firstn 5 anomalies)), avg_temp, avg_humidity.
  split; [reflexivity|]. split; [exact Hat|]. split; [exact Hah|].
  cbn [Analysis.anomalies]. subst w rows. unfold sorted_data.
  destruct (detect_anomalies_runs
              (map Reading.temperature (window readings (cutoff now hours)))
              (map Reading.humidity (window readings (cutoff now hours)))
              avg_temp avg_humidity
              (by_timestamp (map row (window readings (cutoff now hours)))))
    as [Hfew Hmany].
  { now rewrite !length_map. }
  rewrite length_map in Hfew, Hmany. split.
  - intros Hn. rewrite (Hfew Hn) in Hdetect. now injection Hdetect as <-.
  - intros Hn. destruct (Hmany Hn) as (temp_std & humidity_std & Hts & Hhs & Hrun).
    exists temp_std, humidity_std. rewrite Hrun in Hdetect. now injection Hdetect as <-.
Qed.

(** C2.  For an answerable request with [n] readings in its filtered set:
    when [n <= 2] the anomalies of the answer are empty; when [n > 2] both
    sample standard deviations exist, a row of the filtered set is flagged
    exactly when [|temp - avg_temp| > 2 * std_temp] or
    [|hum - avg_hum| > 2 * std_hum], the reason of a flagged entry is
    ["Temperature spike"] whenever the temperature test holds and
    ["Humidity spike"] otherwise, and the answer lists the first five
    flagged entries. *)
Theorem anomaly_flagging (readings : store) (now : datetime) (hours : Z) :
  answerable readings now hours ->
  let w := window readings (cutoff now hours) in
  let rows := sorted_data readings now hours in
  exists r avg_temp avg_humidity,
    get_analysis readings now hours = Return r /\
    mean (map Reading.temperature w) = Return avg_temp /\
    mean (map Reading.humidity w) = Return avg_humidity /\
    ((length w <= 2)%nat -> Analysis.anomalies r = []) /\
    ((2 < length w)%nat ->
     exists temp_std humidity_std,
       stdev (map Reading.temperature w) = Return temp_std /\
       stdev (map Reading.humidity w) = Return humidity_std /\
       Analysis.anomalies r
       = firstn 5 (flagged avg_temp temp_std avg_humidity humidity_std rows) /\
       (forall x, In x rows ->
          (In (entry avg_temp temp_std x)
              (flagged avg_temp temp_std avg_humidity humidity_std rows) <->
           num_gt (num_abs (num_sub (row_temperature x) avg_temp))
                  (num_mul (of_int 2) temp_std) = true \/
           num_gt (num_abs (num_sub (row_humidity x) avg_humidity))
                  (num_mul (of_int 2) humidity_std) = true)) /\
       (forall a, In a (flagged avg_temp temp_std avg_humidity humidity_std rows) ->
          exists x, In x rows /\ a = entry avg_temp temp_std x) /\
       (forall a, In a (flagged avg_temp temp_std avg_humidity humidity_std rows) ->
          Anomaly.reason a
          = if num_gt (num_abs (num_sub (Anomaly.temperature a) avg_temp))
                      (num_mul (of_int 2) temp_std)
            then "Temperature spike" else "Humidity spike")).
Proof.
  intros Hreq w rows.
  destruct (anomalies_of_answer _ _ _ Hreq)
    as (r & avg_temp & avg_humidity & Hrun & Hat & Hah & Hfew & Hmany).
  exists r, avg_temp, avg_humidity.
  repeat (split; [assumption|]).
  intros Hn. destruct (Hmany Hn) as (temp_std & humidity_std & Hts & Hhs & Hlist).
  exists temp_std, humidity_std. unfold flagged.
  repeat (split; [assumption|]). split; [|split].
  - intros x Hx. rewrite <- orb_true_iff.
    change (num_gt (num_abs (num_sub (row_temperature x) avg_temp))
                   (num_mul (of_int 2) temp_std)
            || num_gt (num_abs (num_sub (row_humidity x) avg_humidity))
                      (num_mul (of_int 2) humidity_std))
      with (qualifies avg_temp temp_std avg_humidity humidity_std x).
    rewrite in_map_iff. split.
    + intros (y & Hy & Hin). apply filter_In in Hin. destruct Hin as [_ Hq].
      unfold qualifies in *. unfold entry in Hy. injection Hy as Et Eh _ _.
      now rewrite <- Et, <- Eh.
    + intros Hq. exists x. split; [reflexivity|]. apply filter_In. now split.
  - intros a Ha. apply in_map_iff in Ha. destruct Ha as (x & <- & Hin).
    apply filter_In in Hin. exists x. now split.
  - intros a Ha. apply in_map_iff in Ha. destruct Ha as (x & <- & _). reflexivity.
Qed.

(** The fields of the answer to an answerable request. *)
Lemma answer_of_request (readings : store) (now : datetime) (hours : Z) :
  answerable readings now hours ->
  let w := window readings (cutoff now hours) in
  exists avg_temp avg_humidity max_temp min_temp max_humidity min_humidity
         temp_trend humidity_trend anomalies,
    mean (map Reading.temperature w) = Return avg_temp /\
    mean (map Reading.humidity w) = Return avg_humidity /\
    Builtins.max (map Reading.temperature w) = Return max_temp /\
    Builtins.min (map Reading.temperature w) = Return min_temp /\
    Builtins.max (map Reading.humidity w) = Return max_humidity /\
    Builtins.min (map Reading.humidity w) = Return min_humidity /\
    get_analysis readings now hours
    = Return (Analysis.mk hours (Z.of_nat (length w))
                (Stats.mk (round avg_temp 2) (round max_temp 2) (round min_temp 2)
                          temp_trend)
                (Stats.mk (round avg_humidity 2) (round max_humidity 2)
                          (round min_humidity 2) humidity_trend)
                (comfort_analysis avg_temp avg_humidity)
                (firstn 5 anomalies)).
Proof.
  intros Hreq w. pose proof Hreq as (_ & _ & _ & Hw).
  rewrite (get_analysis_answer _ _ _ Hreq).
  destruct (analyse_window hours _ Hw)
    as (avg_temp & avg_humidity & max_temp & min_temp & max_humidity & min_humidity
        & temp_trend & humidity_trend & anomalies
        & Hat & Hah & Hmt & Hnt & Hmh & Hnh & _ & _ & Hrun).
  exists avg_temp, avg_humidity, max_temp, min_temp, max_humidity, min_humidity,
    temp_trend, humidity_trend, anomalies.
  repeat (split; [assumption|]). exact Hrun.
Qed.

(** C3.  For an answerable request, with the means [avg_temp] and
    [avg_humidity] of its filtered set: the comfort score of the answer is
    the sum of the temperature contribution (50 and "Optimal temperature"
    for [18 <= avg_temp <= 24], else 25 and "Acceptable temperature" for
    [15 <= avg_temp <= 30], else 0 and "Outside comfort zone") and of the
    humidity contribution (50 and "Optimal humidity" for
    [40 <= avg_humidity <= 60], else 25 and "Acceptable humidity" for
    [30 <= avg_humidity <= 70], else 0 and "Outside comfort zone"), the two
    comments are those of the contributions, and the level is "Excellent"
    for a score [>= 80], else "Good" for [>= 60], else "Fair" for [>= 40],
    else "Poor". *)
Theorem comfort_scoring (readings : store) (now : datetime) (hours : Z) :
  answerable readings now hours ->
  let w := window readings (cutoff now hours) in
  exists r avg_temp avg_humidity,
    get_analysis readings now hours = Return r /\
    mean (map Reading.temperature w) = Return avg_temp /\
    mean (map Reading.humidity w) = Return avg_humidity /\
    Comfort.score (Analysis.comfort r)
    = fst (temperature_contribution avg_temp) + fst (humidity_contribution avg_humidity) /\
    Comfort.temperature_comment (Analysis.comfort r)
    = snd (temperature_contribution avg_temp) /\
    Comfort.humidity_comment (Analysis.comfort r)
    = snd (humidity_contribution avg_humidity) /\
    Comfort.level (Analysis.comfort r) = level_of (Comfort.score (Analysis.comfort r)).
Proof.
  intros Hreq w.
  destruct (answer_of_request _ _ _ Hreq)
    as (avg_temp & avg_humidity & max_temp & min_temp & max_humidity & min_humidity
        & temp_trend & humidity_trend & anomalies
        & Hat & Hah & _ & _ & _ & _ & Hrun).
  eexists. exists avg_temp, avg_humidity.
  split; [exact Hrun|]. split; [exact Hat|]. split; [exact Hah|].
  cbn [Analysis.comfort]. rewrite comfort_analysis_table. cbn. auto.
Qed.

(** C9.  The answer to an answerable request has a field [period_hours]
    equal to the argument [hours] and a field [readings_count] equal to the
    number of readings of the filtered set. *)
Theorem period_and_count (readings : store) (now : datetime) (hours : Z) :
  answerable readings now hours ->
  exists r,
    get_analysis readings now hours = Return r /\
    Analysis.period_hours r = hours /\
    Analysis.readings_count r
    = Z.of_nat (length (window readings (cutoff now hours))).
Proof.
  intros Hreq.
  destruct (answer_of_request _ _ _ Hreq)
    as (? & ? & ? & ? & ? & ? & ? & ? & ? & _ & _ & _ & _ & _ & _ & Hrun).
  eexists. split; [exact Hrun|]. split; reflexivity.
Qed.

(** C4.  For an answerable request, each of the two sections of the answer
    reports [round(., 2)] of the mean of the metric over the filtered set,
    of an element of the filtered set that none exceeds and of an element
    that exceeds none, so, [round(., 2)] rounding to two decimals, each
    reported value is [k / 100] for an integer [k] nearest to a hundred
    times the statistic; the comfort score is the integer the unrounded
    means earn, and every anomaly entry carries the temperature and the
    humidity of a reading of the filtered set as they are stored. *)
Theorem rounded_statistics (readings : store) (now : datetime) (hours : Z) :
  answerable readings now hours ->
  let w := window readings (cutoff now hours) in
  let temps := map Reading.temperature w in
  let humidities := map Reading.humidity w in
  exists r avg_temp max_temp min_temp avg_humidity max_humidity min_humidity,
    get_analysis readings now hours = Return r /\
    mean temps = Return avg_temp /\
    (In max_temp temps /\ forall x, In x temps -> num_gt x max_temp = false) /\
    (In min_temp temps /\ forall x, In x temps -> num_lt x min_temp = false) /\
    mean humidities = Return avg_humidity /\
    (In max_humidity humidities /\
     forall x, In x humidities -> num_gt x max_humidity = false) /\
    (In min_humidity humidities /\
     forall x, In x humidities -> num_lt x min_humidity = false) /\
    Stats.average (Analysis.temperature r) = round avg_temp 2 /\
    Stats.max (Analysis.temperature r) = round max_temp 2 /\
    Stats.min (Analysis.temperature r) = round min_temp 2 /\
    Stats.average (Analysis.humidity r) = round avg_humidity 2 /\
    Stats.max (Analysis.humidity r) = round max_humidity 2 /\
    Stats.min (Analysis.humidity r) = round min_humidity 2 /\
    (forall exact num_div,
       rounds_to_two_decimals exact num_div ->
       two_decimals_of exact num_div avg_temp (Stats.average (Analysis.temperature r)) /\
       two_decimals_of exact num_div max_temp (Stats.max (Analysis.temperature r)) /\
       two_decimals_of exact num_div min_temp (Stats.min (Analysis.temperature r)) /\
       two_decimals_of exact num_div avg_humidity (Stats.average (Analysis.humidity r)) /\
       two_decimals_of exact num_div max_humidity (Stats.max (Analysis.humidity r)) /\
       two_decimals_of exact num_div min_humidity (Stats.min (Analysis.humidity r))) /\
    Comfort.score (Analysis.comfort r)
    = fst (temperature_contribution avg_temp) + fst (humidity_contribution avg_humidity) /\
    (forall a, In a (Analysis.anomalies r) ->
       exists reading, In reading w /\
         Anomaly.temperature a = Reading.temperature reading /\
         Anomaly.humidity a = Reading.humidity reading).
Proof.
  intros Hreq w temps humidities. pose proof Hreq as (_ & _ & _ & Hw).
  destruct (answer_of_request _ _ _ Hreq)
    as (avg_temp & avg_humidity & max_temp & min_temp & max_humidity & min_humidity
        & temp_trend & humidity_trend & anomalies
        & Hat & Hah & Hmt & Hnt & Hmh & Hnh & Hrun).
  assert (Ht : temps <> []).
  { intros Hnil. apply map_eq_nil in Hnil. contradiction. }
  assert (Hh : humidities <> []).
  { intros Hnil. apply map_eq_nil in Hnil. contradiction. }
  destruct (max_spec _ Ht) as (m1 & E1 & Hmax_t).
  destruct (min_spec _ Ht) as (m2 & E2 & Hmin_t).
  destruct (max_spec _ Hh) as (m3 & E3 & Hmax_h).
  destruct (min_spec _ Hh) as (m4 & E4 & Hmin_h).
  fold w temps in Hmt, Hnt. fold w humidities in Hmh, Hnh.
  assert (m1 = max_temp) by congruence. assert (m2 = min_temp) by congruence.
  assert (m3 = max_humidity) by congruence. assert (m4 = min_humidity) by congruence.
  subst m1 m2 m3 m4.
  eexists. exists avg_temp, max_temp, min_temp, avg_humidity, max_humidity, min_humidity.
  split; [exact Hrun|].
  cbn [Analysis.temperature Analysis.humidity Analysis.comfort Analysis.anomalies
       Stats.average Stats.max Stats.min].
  repeat (split; [assumption || reflexivity|]).
  split; [intros exact num_div Hround; unfold two_decimals_of; repeat split;
          apply Hround|].
  split; [rewrite comfort_analysis_table; reflexivity|].
  intros a Ha.
  destruct (anomalies_of_answer _ _ _ Hreq)
    as (r' & avg_temp' & avg_humidity' & Hrun' & _ & _ & Hfew & Hmany).
  assert (Han : Analysis.anomalies r' = firstn 5 anomalies).
  { rewrite Hrun in Hrun'. injection Hrun' as <-. reflexivity. }
  rewrite Han in Hfew, Hmany.
  destruct (le_lt_dec (length (window readings (cutoff now hours))) 2) as [Hle|Hlt].
  - rewrite (Hfew Hle) in Ha. destruct Ha.
  - destruct (Hmany Hlt) as (temp_std & humidity_std & _ & _ & Hlist).
    rewrite Hlist in Ha.
    assert (Hin : In a (map (entry avg_temp' temp_std)
                          (filter (qualifies avg_temp' temp_std avg_humidity' humidity_std)
                                  (sorted_data readings now hours)))).
    { rewrite <- (firstn_skipn 5 (map _ _)). apply in_or_app. now left. }
    apply in_map_iff in Hin. destruct Hin as (x & <- & Hx).
    apply filter_In in Hx. destruct Hx as [Hx _].
    apply (Permutation_in _ (sorted_data_perm readings now hours)) in Hx.
    apply in_map_iff in Hx. destruct Hx as (reading & <- & Hreading).
    exists reading. repeat split. exact Hreading.
Qed.

(** C6.  For an answerable request, the anomalies of the answer are at most
    five, they are the entries of the first five qualifying rows of the
    filtered set taken by ascending timestamp, in that order, whatever the
    size of their deviations (no row qualifies when the filtered set has
    two readings or fewer), and they are five when more than five rows
    qualify. *)
Theorem anomalies_first_five (readings : store) (now : datetime) (hours : Z) :
  answerable readings now hours ->
  let w := window readings (cutoff now hours) in
  let rows := sorted_data readings now hours in
  exists r qualifying describe,
    get_analysis readings now hours = Return r /\
    (length (Analysis.anomalies r) <= 5)%nat /\
    Analysis.anomalies r = map describe (firstn 5 qualifying) /\
    (forall x, Anomaly.temperature (describe x) = row_temperature x /\
               Anomaly.humidity (describe x) = row_humidity x /\
               Anomaly.timestamp (describe x) = isoformat (row_timestamp x)) /\
    StronglySorted (fun x y => row_timestamp x <= row_timestamp y) qualifying /\
    StronglySorted (fun x y => row_timestamp x <= row_timestamp y) (firstn 5 qualifying) /\
    ((length w <= 2)%nat -> qualifying = []) /\
    ((2 < length w)%nat ->
     exists avg_temp avg_humidity temp_std humidity_std,
       mean (map Reading.temperature w) = Return avg_temp /\
       mean (map Reading.humidity w) = Return avg_humidity /\
       stdev (map Reading.temperature w) = Return temp_std /\
       stdev (map Reading.humidity w) = Return humidity_std /\
       qualifying = filter (qualifies avg_temp temp_std avg_humidity humidity_std) rows) /\
    ((5 < length qualifying)%nat -> length (Analysis.anomalies r) = 5%nat).
Proof.
  intros Hreq w rows.
  destruct (anomalies_of_answer _ _ _ Hreq)
    as (r & avg_temp & avg_humidity & Hrun & Hat & Hah & Hfew & Hmany).
  destruct (le_lt_dec (length w) 2) as [Hle|Hlt].
  - exists r, [], (entry avg_temp avg_temp).
    split; [exact Hrun|]. rewrite (Hfew Hle). cbn.
    repeat split; try constructor; try lia.
  - destruct (Hmany Hlt) as (temp_std & humidity_std & Hts & Hhs & Hlist).
    exists r, (filter (qualifies avg_temp temp_std avg_humidity humidity_std) rows),
      (entry avg_temp temp_std).
    split; [exact Hrun|]. rewrite Hlist, firstn_map.
    assert (Hsorted : StronglySorted (fun x y => row_timestamp x <= row_timestamp y)
                        (filter (qualifies avg_temp temp_std avg_humidity humidity_std)
                                rows)).
    { apply StronglySorted_filter, sorted_data_ascending. }
    split; [rewrite length_map, length_firstn; lia|].
    split; [reflexivity|]. split; [intros x; repeat split|].
    split; [exact Hsorted|]. split; [apply StronglySorted_firstn, Hsorted|].
    split; [intros Hle; fold w in Hle; lia|]. split.
    + intros _. exists avg_temp, avg_humidity, temp_std, humidity_std. auto.
    + intros Hmore. rewrite length_map, length_firstn. fold rows. lia.
Qed.

(** Among well-formed readings, the recent ones are those whose moment is
    strictly after the cutoff. *)
Lemma window_spec (readings : store) (cutoff_time : datetime) (reading : Reading.t) :
  well_formed readings ->
  In reading (window readings cutoff_time) <->
  In reading (map snd readings) /\ cutoff_time < moment reading.
Proof.
  intros Hwf. unfold window. rewrite filter_In.
  split; intros [Hin Hrecent]; (split; [exact Hin|]).
  - unfold recent in Hrecent. unfold moment.
    destruct (fromisoformat (Reading.timestamp reading)); [|discriminate].
    now apply Z.ltb_lt.
  - apply in_map_iff in Hin. destruct Hin as (item & <- & Hitem).
    unfold well_formed in Hwf. rewrite Forall_forall in Hwf.
    destruct (Hwf item Hitem) as [d Hd].
    unfold recent. unfold moment in Hrecent. rewrite Hd in *. now apply Z.ltb_lt.
Qed.

(** With a stored reading and a cutoff that is no datetime, both [GET]
    endpoints fail with the 500 error of [OverflowError]. *)
Lemma get_analysis_overflow (readings : store) (now : datetime) (hours : Z) :
  readings <> [] ->
  datetime_in_range (cutoff now hours) = false ->
  get_analysis readings now hours = Raise (HTTPException 500 (str OverflowError)).
Proof.
  intros Hstore Hcut. unfold get_analysis.
  destruct readings as [|item readings]; [contradiction|].
  now rewrite (cutoff_overflow _ _ Hcut).
Qed.

Lemma get_readings_overflow (readings : store) (now : datetime) (hours : Z) :
  readings <> [] ->
  datetime_in_range (cutoff now hours) = false ->
  get_readings readings now hours = Raise (HTTPException 500 (str OverflowError)).
Proof.
  intros Hstore Hcut. unfold get_readings.
  destruct readings as [|item readings]; [contradiction|].
  now rewrite (cutoff_overflow _ _ Hcut).
Qed.

(** C5 (amended).  An empty store is answered with the 404 error for every
    [hours] and [now].  For a store of well-formed readings and a clock
    [now]: the filtered set holds exactly the stored readings whose
    timestamp is strictly after [now] minus [hours] hours; when that cutoff
    is a datetime, the request fails with a 404 error exactly when the
    filtered set is empty and is otherwise answered with the analysis of
    the filtered set; when the cutoff is no datetime and the store holds a
    reading, the request fails with the 500 error of [OverflowError]. *)
Theorem get_analysis_window (readings : store) (now : datetime) (hours : Z) :
  get_analysis [] now hours = Raise (HTTPException 404 (Literal "No readings found")) /\
  (well_formed readings ->
   datetime_in_range now = true ->
   let w := window readings (cutoff now hours) in
   (forall reading,
      In reading w <->
      In reading (map snd readings) /\ cutoff now hours < moment reading) /\
   (datetime_in_range (cutoff now hours) = true ->
    (w = [] <->
     exists d, get_analysis readings now hours = Raise (HTTPException 404 d)) /\
    (w <> [] ->
     exists r,
       get_analysis readings now hours = Return r /\
       analyse hours (map Reading.temperature w) (map Reading.humidity w) (map moment w)
       = Return r)) /\
   (readings <> [] ->
    datetime_in_range (cutoff now hours) = false ->
    get_analysis readings now hours = Raise (HTTPException 500 (str OverflowError)))).
Proof.
  split; [reflexivity|]. intros Hwf Hnow w.
  split; [intros reading; now apply window_spec|]. split.
  - intros Hcut.
    assert (Hsome : w <> [] ->
                    exists r,
                      get_analysis readings now hours = Return r /\
                      analyse hours (map Reading.temperature w) (map Reading.humidity w)
                              (map moment w) = Return r).
    { intros Hw.
      assert (Hreq : answerable readings now hours) by (repeat split; assumption).
      rewrite (get_analysis_answer _ _ _ Hreq).
      destruct (analyse_window hours _ Hw)
        as (? & ? & ? & ? & ? & ? & ? & ? & ? & _ & _ & _ & _ & _ & _ & _ & _ & Hrun).
      eexists. split; exact Hrun. }
    split; [|exact Hsome]. split.
    + intros Hw. unfold get_analysis.
      destruct readings as [|item readings]; [eexists; reflexivity|].
      remember (item :: readings) as store0 eqn:Hstore. clear Hstore.
      rewrite (cutoff_computed _ _ Hnow Hcut). cbn [bind].
      rewrite (analysis_loop _ _ Hwf). cbn [bind app]. fold w. rewrite Hw.
      eexists. reflexivity.
    + intros [d Hfail]. destruct w as [|reading0 w0] eqn:Ew; [reflexivity|].
      destruct Hsome as (r & Hrun & _); [discriminate|]. congruence.
  - apply get_analysis_overflow.
Qed.

(** C7 (amended).  The range checks fail with the temperature error for
    every temperature outside [-50, 150]; they fail with the humidity
    error for every humidity outside [0, 100] whose temperature is inside
    [-50, 150]; they succeed for every pair inside both ranges; and a
    failed check leaves the store as it was. *)
Theorem validate_ranges (reading : SensorReading.t) :
  (between (-50) (SensorReading.temperature reading) 150 = false ->
   validate reading
   = Raise (HTTPException 400 (Literal "Temperature out of valid range"))) /\
  (between (-50) (SensorReading.temperature reading) 150 = true ->
   between 0 (SensorReading.humidity reading) 100 = false ->
   validate reading
   = Raise (HTTPException 400 (Literal "Humidity must be between 0 and 100"))) /\
  (between (-50) (SensorReading.temperature reading) 150 = true ->
   between 0 (SensorReading.humidity reading) 100 = true ->
   validate reading = Return tt) /\
  (forall readings now key e,
     validate reading = Raise e ->
     add_reading readings now key reading = (readings, Raise e)).
Proof.
  unfold add_reading, validate.
  destruct (between (-50) (SensorReading.temperature reading) 150),
    (between 0 (SensorReading.humidity reading) 100); cbn [negb];
    (split; [intros; try discriminate; reflexivity|]);
    (split; [intros; try discriminate; reflexivity|]);
    (split; [intros; try discriminate; reflexivity|]);
    intros readings now key e He; try discriminate; injection He as <-; reflexivity.
Qed.

(** C8.  A temperature outside [-50, 150] fails with the temperature error
    whatever the humidity is, also when the humidity is out of range
    too; nothing is stored. *)
Theorem temperature_checked_first (reading : SensorReading.t) (readings : store)
    (now : datetime) (key : string) :
  between (-50) (SensorReading.temperature reading) 150 = false ->
  validate reading
  = Raise (HTTPException 400 (Literal "Temperature out of valid range")) /\
  add_reading readings now key reading
  = (readings, Raise (HTTPException 400 (Literal "Temperature out of valid range"))).
Proof.
  intros Hout. unfold add_reading, validate. rewrite Hout. cbn. split; reflexivity.
Qed.

(** [<=] on the timestamp strings of two readings. *)
Lemma string_leb_of_ltb (a b : string) : String.ltb b a = false -> String.leb a b = true.
Proof.
  unfold String.ltb, String.leb. rewrite (String.compare_antisym b a).
  destruct (String.compare a b); simpl; congruence.
Qed.

(** C10 (amended).  An empty store is answered with the empty list.  For a
    store of well-formed readings and a clock [now]: when the cutoff, [now]
    minus [hours] hours, is a datetime, the request is answered, without an
    error, with the readings of the filtered set (the stored readings whose
    timestamp is strictly after the cutoff), each once, in ascending order
    of their timestamp strings, so with the empty list when no reading is
    recent; when the cutoff is no datetime and the store holds a reading,
    the request fails with the 500 error of [OverflowError]. *)
Theorem get_readings_window (readings : store) (now : datetime) (hours : Z) :
  get_readings [] now hours = Return [] /\
  (well_formed readings ->
   datetime_in_range now = true ->
   let w := window readings (cutoff now hours) in
   (forall reading,
      In reading w <->
      In reading (map snd readings) /\ cutoff now hours < moment reading) /\
   (datetime_in_range (cutoff now hours) = true ->
    let answer := Builtins.sorted String.ltb Reading.timestamp w in
    get_readings readings now hours = Return answer /\
    Permutation answer w /\
    StronglySorted
      (fun a b => String.leb (Reading.timestamp a) (Reading.timestamp b) = true)
      answer /\
    (w = [] -> answer = [])) /\
   (readings <> [] ->
    datetime_in_range (cutoff now hours) = false ->
    get_readings readings now hours = Raise (HTTPException 500 (str OverflowError)))).
Proof.
  split; [reflexivity|]. intros Hwf Hnow w.
  split; [intros reading; now apply window_spec|]. split.
  - intros Hcut answer. subst answer.
    split; [|split; [|split]].
    + unfold get_readings. destruct readings as [|item readings].
      * reflexivity.
      * remember (item :: readings) as store0 eqn:Hstore. clear Hstore.
        rewrite (cutoff_computed _ _ Hnow Hcut). cbn [bind].
        rewrite (readings_loop _ _ Hwf). reflexivity.
    + apply sorted_perm.
    + apply StronglySorted_weaken with (R := ascending String.ltb Reading.timestamp).
      * intros a b. apply string_leb_of_ltb.
      * apply sorted_ascending.
        -- apply string_ltb_asym.
        -- apply string_ltb_negtrans.
    + intros ->. reflexivity.
  - apply get_readings_overflow.
Qed.

End Properties.

(** ** The properties on the concrete stores *)

(** Well-formedness can be checked by running the parser. *)
Lemma well_formed_check `{PyLib} (readings : store) :
  forallb (fun item => match fromisoformat (Reading.timestamp (snd item)) with
                       | Return _ => true
                       | Raise _ => false
                       end) readings = true ->
  well_formed readings.
Proof.
  intros Hall. apply Forall_forall. intros item Hitem.
  rewrite forallb_forall in Hall. specialize (Hall item Hitem).
  destruct (fromisoformat (Reading.timestamp (snd item))) as [d|e]; [|discriminate].
  now exists d.
Qed.

Lemma nonempty_length {A : Type} (l : list A) : (0 < length l)%nat -> l <> [].
Proof. destruct l; simpl; [lia|discriminate]. Qed.

Ltac answerable_by_running :=
  split; [apply well_formed_check; vm_compute; reflexivity|];
  split; [vm_compute; reflexivity|];
  split; [vm_compute; reflexivity|];
  apply nonempty_length; vm_compute; lia.

Lemma single_answerable : @answerable QLib Example.single Example.now 24.
Proof. answerable_by_running. Qed.

Lemma week_answerable : @answerable QLib Example.week Example.now 24.
Proof. answerable_by_running. Qed.

Lemma spikes_answerable : @answerable QLib Example.spikes Example.now 24.
Proof. answerable_by_running. Qed.

(** The six readings of the last day in [Example.week]: the first half
    averages 20 degrees and the second 40, so the temperature rises; the
    humidity is 50 percent throughout, so its two half-means are equal and
    it falls.  The one reading of [Example.single] is stable. *)
Lemma trend_by_halves_witness :
  @answerable QLib Example.week Example.now 24 /\
  @answerable QLib Example.single Example.now 24 /\
  (exists r,
     @get_analysis QLib Example.week Example.now 24 = Return r /\
     Stats.trend (Analysis.temperature r) = "↑ Rising" /\
     Stats.trend (Analysis.humidity r) = "↓ Falling") /\
  (exists r,
     @get_analysis QLib Example.single Example.now 24 = Return r /\
     Stats.trend (Analysis.temperature r) = "→ Stable" /\
     Stats.trend (Analysis.humidity r) = "→ Stable").
Proof.
  split; [exact week_answerable|]. split; [exact single_answerable|]. split.
  - destruct (@trend_by_halves QLib Example.week Example.now 24 week_answerable)
      as (r & Hrun & _ & _ & _ & Hmany).
    exists r. split; [exact Hrun|].
    destruct Hmany
      as (_ & _ & first_temp & second_temp & first_hum & second_hum
          & Hft & Hst & Hfh & Hsh & Htemp & Hhum & _ & _).
    { vm_compute. lia. }
    vm_compute in Hft, Hst, Hfh, Hsh.
    injection Hft as <-. injection Hst as <-. injection Hfh as <-. injection Hsh as <-.
    rewrite Htemp, Hhum. split; vm_compute; reflexivity.
  - destruct (@trend_by_halves QLib Example.single Example.now 24 single_answerable)
      as (r & Hrun & _ & _ & Hone & _).
    exists r. split; [exact Hrun|]. apply Hone. vm_compute. reflexivity.
Defined.

(** C1 as stated fails on the trend strings: for [Example.week] the six
    rows split into halves whose temperature means are 20 and 40, the
    second strictly greater, and the reported trend is not "Rising" (it is
    "↑ Rising"). *)
Lemma trend_label_counterexample :
  length (@sorted_data QLib Example.week Example.now 24) = 6%nat /\
  @mean QLib (map row_temperature (firstn 3 (@sorted_data QLib Example.week Example.now 24)))
  = Return (20 # 1)%Q /\
  @mean QLib (map row_temperature (skipn 3 (@sorted_data QLib Example.week Example.now 24)))
  = Return (40 # 1)%Q /\
  @num_gt QLib (40 # 1)%Q (20 # 1)%Q = true /\
  exists r,
    @get_analysis QLib Example.week Example.now 24 = Return r /\
    Stats.trend (Analysis.temperature r) = "↑ Rising" /\
    Stats.trend (Analysis.temperature r) <> "Rising".
Proof.
  split; [vm_compute; reflexivity|]. split; [vm_compute; reflexivity|].
  split; [vm_compute; reflexivity|]. split; [vm_compute; reflexivity|].
  destruct (@trends_of_answer QLib Example.week Example.now 24 week_answerable)
    as (r & Hrun & Htrends).
  exists r. split; [exact Hrun|].
  remember (Stats.trend (Analysis.temperature r)) as temp_trend eqn:Etemp.
  remember (Stats.trend (Analysis.humidity r)) as humidity_trend eqn:Ehum.
  clear Etemp Ehum Hrun.
  vm_compute in Htrends. injection Htrends as Htemp _.
  rewrite <- Htemp. split; [reflexivity|discriminate].
Qed.

Lemma swings_answerable : @answerable QLib Example.swings Example.now 24.
Proof. answerable_by_running. Qed.

Lemma cold_answerable : @answerable QLib Example.cold Example.now 24.
Proof. answerable_by_running. Qed.

Lemma cool_answerable : @answerable QLib Example.cool Example.now 24.
Proof. answerable_by_running. Qed.

Lemma warm_answerable : @answerable QLib Example.warm Example.now 24.
Proof. answerable_by_running. Qed.

Lemma hot_answerable : @answerable QLib Example.hot Example.now 24.
Proof. answerable_by_running. Qed.

Lemma week_answerable_ten_days : @answerable QLib Example.week Example.now 240.
Proof. answerable_by_running. Qed.

Lemma QLib_rounds_to_two_decimals :
  @rounds_to_two_decimals QLib (fun x => x) QNum.div.
Proof. exact QNum_round_two_decimals. Qed.

(** In [Example.week] the reading of 80 degrees is the one anomaly, a
    temperature spike (the mean is 30 and the deviation 24.49); the single
    reading of [Example.single] is below the three readings detection
    needs.  In [Example.swings] the means are 20.75 and 50.1: the reading
    of minute 3 is flagged for a temperature of -40, below the mean; the
    reading of minute 4, above both means by less than two deviations, is
    not flagged; the reading of minute 5 meets both tests and is a
    temperature spike; the reading of minute 6 is flagged for a humidity
    of 5, below the mean, its temperature being quiet. *)
Lemma anomaly_flagging_witness :
  @answerable QLib Example.week Example.now 24 /\
  @answerable QLib Example.single Example.now 24 /\
  @answerable QLib Example.swings Example.now 24 /\
  (exists r,
     @get_analysis QLib Example.week Example.now 24 = Return r /\
     map Anomaly.reason (Analysis.anomalies r) = ["Temperature spike"] /\
     map Anomaly.timestamp (Analysis.anomalies r) = ["2024-01-15T11:00:00.250000"]) /\
  (exists r,
     @get_analysis QLib Example.single Example.now 24 = Return r /\
     Analysis.anomalies r = []) /\
  (exists r avg_temp avg_humidity temp_std humidity_std,
     @get_analysis QLib Example.swings Example.now 24 = Return r /\
     @mean QLib (map Reading.temperature
                     (@window QLib Example.swings (cutoff Example.now 24)))
     = Return avg_temp /\
     @mean QLib (map Reading.humidity
                     (@window QLib Example.swings (cutoff Example.now 24)))
     = Return avg_humidity /\
     @stdev QLib (map Reading.temperature
                      (@window QLib Example.swings (cutoff Example.now 24)))
     = Return temp_std /\
     @stdev QLib (map Reading.humidity
                      (@window QLib Example.swings (cutoff Example.now 24)))
     = Return humidity_std /\
     avg_temp = (83 # 4)%Q /\
     avg_humidity = (501 # 10)%Q /\
     map Anomaly.timestamp (Analysis.anomalies r)
     = ["2024-01-15T11:03:00"; "2024-01-15T11:05:00"; "2024-01-15T11:06:00"] /\
     map Anomaly.temperature (Analysis.anomalies r)
     = [(-40 # 1)%Q; (90 # 1)%Q; (20 # 1)%Q] /\
     map Anomaly.humidity (Analysis.anomalies r)
     = [(50 # 1)%Q; (95 # 1)%Q; (5 # 1)%Q] /\
     map Anomaly.reason (Analysis.anomalies r)
     = ["Temperature spike"; "Temperature spike"; "Humidity spike"] /\
     @num_lt QLib (-40 # 1)%Q avg_temp = true /\
     @beyond_two_sigma QLib (-40 # 1)%Q avg_temp temp_std = true /\
     @beyond_two_sigma QLib (50 # 1)%Q avg_humidity humidity_std = false /\
     @num_gt QLib (25 # 1)%Q avg_temp = true /\
     @beyond_two_sigma QLib (25 # 1)%Q avg_temp temp_std = false /\
     @num_gt QLib (52 # 1)%Q avg_humidity = true /\
     @beyond_two_sigma QLib (52 # 1)%Q avg_humidity humidity_std = false /\
     @beyond_two_sigma QLib (90 # 1)%Q avg_temp temp_std = true /\
     @beyond_two_sigma QLib (95 # 1)%Q avg_humidity humidity_std = true /\
     @beyond_two_sigma QLib (20 # 1)%Q avg_temp temp_std = false /\
     @num_lt QLib (5 # 1)%Q avg_humidity = true /\
     @beyond_two_sigma QLib (5 # 1)%Q avg_humidity humidity_std = true).
Proof.
  split; [exact week_answerable|]. split; [exact single_answerable|].
  split; [exact swings_answerable|]. split; [|split].
  - destruct (@anomaly_flagging QLib Example.week Example.now 24 week_answerable)
      as (r & avg_temp & avg_humidity & Hrun & Hat & Hah & _ & Hmany).
    exists r. split; [exact Hrun|].
    vm_compute in Hat, Hah. injection Hat as <-. injection Hah as <-.
    destruct Hmany as (temp_std & humidity_std & Hts & Hhs & Hlist & _).
    { vm_compute. lia. }
    vm_compute in Hts, Hhs. injection Hts as <-. injection Hhs as <-.
    rewrite Hlist. split; vm_compute; reflexivity.
  - destruct (@anomaly_flagging QLib Example.single Example.now 24 single_answerable)
      as (r & avg_temp & avg_humidity & Hrun & _ & _ & Hfew & _).
    exists r. split; [exact Hrun|]. apply Hfew. vm_compute. lia.
  - destruct (@anomaly_flagging QLib Example.swings Example.now 24 swings_answerable)
      as (r & avg_temp & avg_humidity & Hrun & Hat & Hah & _ & Hmany).
    destruct Hmany as (temp_std & humidity_std & Hts & Hhs & Hlist & _).
    { vm_compute. lia. }
    exists r, avg_temp, avg_humidity, temp_std, humidity_std.
    split; [exact Hrun|]. split; [exact Hat|]. split; [exact Hah|].
    split; [exact Hts|]. split; [exact Hhs|].
    vm_compute in Hat, Hah, Hts, Hhs.
    injection Hat as <-. injection Hah as <-. injection Hts as <-. injection Hhs as <-.
    rewrite Hlist. repeat split; vm_compute; reflexivity.
Defined.

Ltac comfort_by_running Hanswerable :=
  let r := fresh "r" in
  let avg_temp := fresh "avg_temp" in
  let avg_humidity := fresh "avg_humidity" in
  let Hrun := fresh "Hrun" in
  let Hat := fresh "Hat" in
  let Hah := fresh "Hah" in
  let Hscore := fresh "Hscore" in
  let Htc := fresh "Htc" in
  let Hhc := fresh "Hhc" in
  let Hlevel := fresh "Hlevel" in
  destruct (@comfort_scoring QLib _ _ _ Hanswerable)
    as (r & avg_temp & avg_humidity & Hrun & Hat & Hah & Hscore & Htc & Hhc & Hlevel);
  exists r; split; [exact Hrun|];
  vm_compute in Hat, Hah; injection Hat as <-; injection Hah as <-;
  rewrite Hlevel, Hscore, Htc, Hhc; repeat split; vm_compute; reflexivity.

(** In [Example.week] the mean temperature 30 is acceptable (25 points) and
    the mean humidity 50 optimal (50 points): 75 points, "Good".  The
    single readings: 21.5 and 45 are both optimal, 100 points,
    "Excellent"; 10 and 20 are below both lower bounds and 35 and 80 above
    both upper bounds, no point, "Poor"; 16 and 35 are between the lower
    bounds and 27 and 65 between the upper bounds, 50 points, "Fair". *)
Lemma comfort_scoring_witness :
  @answerable QLib Example.week Example.now 24 /\
  @answerable QLib Example.single Example.now 24 /\
  @answerable QLib Example.cold Example.now 24 /\
  @answerable QLib Example.cool Example.now 24 /\
  @answerable QLib Example.warm Example.now 24 /\
  @answerable QLib Example.hot Example.now 24 /\
  (exists r,
     @get_analysis QLib Example.week Example.now 24 = Return r /\
     Comfort.score (Analysis.comfort r) = 75 /\
     Comfort.temperature_comment (Analysis.comfort r) = "Acceptable temperature" /\
     Comfort.humidity_comment (Analysis.comfort r) = "Optimal humidity" /\
     Comfort.level (Analysis.comfort r) = "Good") /\
  (exists r,
     @get_analysis QLib Example.single Example.now 24 = Return r /\
     Comfort.score (Analysis.comfort r) = 100 /\
     Comfort.temperature_comment (Analysis.comfort r) = "Optimal temperature" /\
     Comfort.humidity_comment (Analysis.comfort r) = "Optimal humidity" /\
     Comfort.level (Analysis.comfort r) = "Excellent") /\
  (exists r,
     @get_analysis QLib Example.cold Example.now 24 = Return r /\
     Comfort.score (Analysis.comfort r) = 0 /\
     Comfort.temperature_comment (Analysis.comfort r) = "Outside comfort zone" /\
     Comfort.humidity_comment (Analysis.comfort r) = "Outside comfort zone" /\
     Comfort.level (Analysis.comfort r) = "Poor") /\
  (exists r,
     @get_analysis QLib Example.cool Example.now 24 = Return r /\
     Comfort.score (Analysis.comfort r) = 50 /\
     Comfort.temperature_comment (Analysis.comfort r) = "Acceptable temperature" /\
     Comfort.humidity_comment (Analysis.comfort r) = "Acceptable humidity" /\
     Comfort.level (Analysis.comfort r) = "Fair") /\
  (exists r,
     @get_analysis QLib Example.warm Example.now 24 = Return r /\
     Comfort.score (Analysis.comfort r) = 50 /\
     Comfort.temperature_comment (Analysis.comfort r) = "Acceptable temperature" /\
     Comfort.humidity_comment (Analysis.comfort r) = "Acceptable humidity" /\
     Comfort.level (Analysis.comfort r) = "Fair") /\
  (exists r,
     @get_analysis QLib Example.hot Example.now 24 = Return r /\
     Comfort.score (Analysis.comfort r) = 0 /\
     Comfort.temperature_comment (Analysis.comfort r) = "Outside comfort zone" /\
     Comfort.humidity_comment (Analysis.comfort r) = "Outside comfort zone" /\
     Comfort.level (Analysis.comfort r) = "Poor").
Proof.
  split; [exact week_answerable|]. split; [exact single_answerable|].
  split; [exact cold_answerable|]. split; [exact cool_answerable|].
  split; [exact warm_answerable|]. split; [exact hot_answerable|].
  split; [comfort_by_running week_answerable|].
  split; [comfort_by_running single_answerable|].
  split; [comfort_by_running cold_answerable|].
  split; [comfort_by_running cool_answerable|].
  split; [comfort_by_running warm_answerable|].
  comfort_by_running hot_answerable.
Defined.

(** In [Example.week] the temperature section reports, for the last day,
    the mean 30, the maximum 80 and the minimum 20; for the last ten days
    the means are 199/7 and 341/7 and the sections report 28.43 and 48.71,
    with the maximum 80 and the minimum 19. *)
Lemma rounded_statistics_witness :
  @answerable QLib Example.week Example.now 24 /\
  @answerable QLib Example.week Example.now 240 /\
  @rounds_to_two_decimals QLib (fun x => x) QNum.div /\
  (exists r,
     @get_analysis QLib Example.week Example.now 24 = Return r /\
     Stats.average (Analysis.temperature r) = (30 # 1)%Q /\
     Stats.max (Analysis.temperature r) = (80 # 1)%Q /\
     Stats.min (Analysis.temperature r) = (20 # 1)%Q /\
     Stats.average (Analysis.humidity r) = (50 # 1)%Q) /\
  (exists r,
     @get_analysis QLib Example.week Example.now 240 = Return r /\
     @mean QLib (map Reading.temperature
                     (@window QLib Example.week (cutoff Example.now 240)))
     = Return (199 # 7)%Q /\
     @mean QLib (map Reading.humidity
                     (@window QLib Example.week (cutoff Example.now 240)))
     = Return (341 # 7)%Q /\
     Stats.average (Analysis.temperature r) = (2843 # 100)%Q /\
     Stats.max (Analysis.temperature r) = (80 # 1)%Q /\
     Stats.min (Analysis.temperature r) = (19 # 1)%Q /\
     Stats.average (Analysis.humidity r) = (4871 # 100)%Q /\
     @two_decimals_of QLib (fun x => x) QNum.div (199 # 7)%Q
        (Stats.average (Analysis.temperature r)) /\
     @two_decimals_of QLib (fun x => x) QNum.div (341 # 7)%Q
        (Stats.average (Analysis.humidity r))).
Proof.
  split; [exact week_answerable|]. split; [exact week_answerable_ten_days|].
  split; [exact QLib_rounds_to_two_decimals|]. split.
  - destruct (@rounded_statistics QLib Example.week Example.now 24 week_answerable)
      as (r & avg_temp & max_temp & min_temp & avg_humidity & max_humidity & min_humidity
          & Hrun & Hat & [Hmax_in Hmax] & [Hmin_in Hmin] & Hah & _ & _
          & Hra & Hrmax & Hrmin & Hrh & _).
    exists r. split; [exact Hrun|].
    vm_compute in Hat, Hah. injection Hat as <-. injection Hah as <-.
    rewrite Hra, Hrmax, Hrmin, Hrh.
    assert (Emax : max_temp = (80 # 1)%Q).
    { assert (Hgt : @num_gt QLib (80 # 1)%Q max_temp = false).
      { apply Hmax. vm_compute. tauto. }
      vm_compute in Hmax_in.
      destruct Hmax_in as [<-|[<-|[<-|[<-|[<-|[<-|[]]]]]]]; try reflexivity;
        vm_compute in Hgt; discriminate. }
    assert (Emin : min_temp = (20 # 1)%Q).
    { assert (Hlt : @num_lt QLib (20 # 1)%Q min_temp = false).
      { apply Hmin. vm_compute. tauto. }
      vm_compute in Hmin_in.
      destruct Hmin_in as [<-|[<-|[<-|[<-|[<-|[<-|[]]]]]]]; try reflexivity;
        vm_compute in Hlt; discriminate. }
    rewrite Emax, Emin. repeat split; vm_compute; reflexivity.
  - destruct (@rounded_statistics QLib Example.week Example.now 240
                week_answerable_ten_days)
      as (r & avg_temp & max_temp & min_temp & avg_humidity & max_humidity & min_humidity
          & Hrun & Hat & [Hmax_in Hmax] & [Hmin_in Hmin] & Hah & _ & _
          & Hra & Hrmax & Hrmin & Hrh & _ & _ & Hdecimals & _).
    exists r. split; [exact Hrun|].
    destruct (Hdecimals (fun x => x) QNum.div QLib_rounds_to_two_decimals)
      as (Hdt & _ & _ & Hdh & _).
    vm_compute in Hat, Hah. injection Hat as <-. injection Hah as <-.
    split; [vm_compute; reflexivity|]. split; [vm_compute; reflexivity|].
    assert (Emax : max_temp = (80 # 1)%Q).
    { assert (Hgt : @num_gt QLib (80 # 1)%Q max_temp = false).
      { apply Hmax. vm_compute. tauto. }
      vm_compute in Hmax_in.
      destruct Hmax_in as [<-|[<-|[<-|[<-|[<-|[<-|[<-|[]]]]]]]]; try reflexivity;
        vm_compute in Hgt; discriminate. }
    assert (Emin : min_temp = (19 # 1)%Q).
    { assert (Hlt : @num_lt QLib (19 # 1)%Q min_temp = false).
      { apply Hmin. vm_compute. tauto. }
      vm_compute in Hmin_in.
      destruct Hmin_in as [<-|[<-|[<-|[<-|[<-|[<-|[<-|[]]]]]]]]; try reflexivity;
        vm_compute in Hlt; discriminate. }
    split; [rewrite Hra; vm_compute; reflexivity|].
    split; [rewrite Hrmax, Emax; vm_compute; reflexivity|].
    split; [rewrite Hrmin, Emin; vm_compute; reflexivity|].
    split; [rewrite Hrh; vm_compute; reflexivity|].
    split; assumption.
Defined.

(** In [Example.spikes] six rows qualify; the answer lists the five
    earliest. *)
Lemma anomalies_first_five_witness :
  @answerable QLib Example.spikes Example.now 24 /\
  exists r,
    @get_analysis QLib Example.spikes Example.now 24 = Return r /\
    length (Analysis.anomalies r) = 5%nat /\
    map Anomaly.timestamp (Analysis.anomalies r)
    = ["2024-01-15T11:00:00"; "2024-01-15T11:01:00"; "2024-01-15T11:02:00";
       "2024-01-15T11:03:00"; "2024-01-15T11:04:00"].
Proof.
  split; [exact spikes_answerable|].
  destruct (@anomalies_first_five QLib Example.spikes Example.now 24 spikes_answerable)
    as (r & qualifying & describe & Hrun & _ & Hlist & Hdescribe & _ & _ & _ & Hmany
        & Hfive).
  exists r. split; [exact Hrun|].
  destruct Hmany
    as (avg_temp & avg_humidity & temp_std & humidity_std & Hat & Hah & Hts & Hhs & Hq).
  { vm_compute. lia. }
  vm_compute in Hat, Hah, Hts, Hhs.
  injection Hat as <-. injection Hah as <-. injection Hts as <-. injection Hhs as <-.
  split.
  - apply Hfive. rewrite Hq. vm_compute. lia.
  - rewrite Hlist, map_map.
    rewrite (map_ext _ (fun x => @isoformat QLib (row_timestamp x)))
      by (intros x; apply Hdescribe).
    rewrite Hq. vm_compute. reflexivity.
Defined.

(** In [Example.week] six of the seven stored readings are in the last 24
    hours. *)
Lemma period_and_count_witness :
  @answerable QLib Example.week Example.now 24 /\
  exists r,
    @get_analysis QLib Example.week Example.now 24 = Return r /\
    Analysis.period_hours r = 24 /\
    Analysis.readings_count r = 6.
Proof.
  split; [exact week_answerable|].
  destruct (@period_and_count QLib Example.week Example.now 24 week_answerable)
    as (r & Hrun & Hperiod & Hcount).
  exists r. split; [exact Hrun|]. split; [exact Hperiod|].
  rewrite Hcount. vm_compute. reflexivity.
Defined.

Lemma week_well_formed : @well_formed QLib Example.week.
Proof. apply well_formed_check. vm_compute. reflexivity. Qed.

Lemma week_stored : Example.week <> [].
Proof. unfold Example.week. discriminate. Qed.

(** [Example.week]: answered for 24 hours; a 404 error for 0 hours, when no
    reading is after the cutoff. *)
Lemma get_analysis_window_witness :
  @well_formed QLib Example.week /\
  datetime_in_range Example.now = true /\
  (exists r, @get_analysis QLib Example.week Example.now 24 = Return r) /\
  (exists d, @get_analysis QLib Example.week Example.now 0 = Raise (HTTPException 404 d)).
Proof.
  split; [exact week_well_formed|]. split; [vm_compute; reflexivity|]. split.
  - destruct (@get_analysis_window QLib Example.week Example.now 24) as [_ Hwindow].
    destruct (Hwindow week_well_formed) as (_ & Hin & _); [vm_compute; reflexivity|].
    destruct Hin as [_ Hsome]; [vm_compute; reflexivity|].
    destruct Hsome as (r & Hrun & _).
    + apply nonempty_length. vm_compute. lia.
    + now exists r.
  - destruct (@get_analysis_window QLib Example.week Example.now 0) as [_ Hwindow].
    destruct (Hwindow week_well_formed) as (_ & Hin & _); [vm_compute; reflexivity|].
    destruct Hin as [Hnone _]; [vm_compute; reflexivity|].
    apply Hnone. apply length_zero_iff_nil. vm_compute. reflexivity.
Defined.

(** C5 as stated fails for a cutoff before [datetime.min]: with a window of
    100000000 hours every reading of [Example.week] is after the cutoff, so
    the filtered set is not empty, and the request fails with the 500 error
    of [OverflowError], which is neither the 404 error nor an analysis. *)
Lemma get_analysis_overflow_counterexample :
  @well_formed QLib Example.week /\
  datetime_in_range Example.now = true /\
  length (@window QLib Example.week (cutoff Example.now 100000000)) = 7%nat /\
  @get_analysis QLib Example.week Example.now 100000000
  = Raise (HTTPException 500 (str OverflowError)).
Proof.
  split; [exact week_well_formed|]. split; [vm_compute; reflexivity|].
  split; [vm_compute; reflexivity|].
  apply get_analysis_overflow; [exact week_stored|vm_compute; reflexivity].
Qed.

(** The three outcomes of the range checks. *)
Lemma validate_ranges_witness :
  @validate QLib (@SensorReading.mk QLib (20 # 1)%Q (50 # 1)%Q) = Return tt /\
  @validate QLib (@SensorReading.mk QLib (20 # 1)%Q (120 # 1)%Q)
  = Raise (HTTPException 400 (Literal "Humidity must be between 0 and 100")) /\
  @validate QLib (@SensorReading.mk QLib (200 # 1)%Q (50 # 1)%Q)
  = Raise (HTTPException 400 (Literal "Temperature out of valid range")).
Proof.
  split; [|split].
  - apply (@validate_ranges QLib (@SensorReading.mk QLib (20 # 1)%Q (50 # 1)%Q));
      vm_compute; reflexivity.
  - apply (@validate_ranges QLib (@SensorReading.mk QLib (20 # 1)%Q (120 # 1)%Q));
      vm_compute; reflexivity.
  - apply (@validate_ranges QLib (@SensorReading.mk QLib (200 # 1)%Q (50 # 1)%Q)).
    vm_compute. reflexivity.
Defined.

(** C7 as stated fails when both values are out of range: a humidity of
    200 is outside [0, 100], and with a temperature of 200 the check fails
    with the temperature error, not with the humidity error. *)
Lemma validate_both_counterexample :
  @between QLib 0 (200 # 1)%Q 100 = false /\
  @validate QLib (@SensorReading.mk QLib (200 # 1)%Q (200 # 1)%Q)
  = Raise (HTTPException 400 (Literal "Temperature out of valid range")) /\
  @validate QLib (@SensorReading.mk QLib (200 # 1)%Q (200 # 1)%Q)
  <> Raise (HTTPException 400 (Literal "Humidity must be between 0 and 100")).
Proof.
  split; [vm_compute; reflexivity|]. split; [vm_compute; reflexivity|].
  intros Heq. vm_compute in Heq. discriminate.
Qed.

(** A temperature and a humidity of 200: the temperature error, and the
    store is left as it was. *)
Lemma temperature_checked_first_witness :
  @between QLib (-50) (200 # 1)%Q 150 = false /\
  @between QLib 0 (200 # 1)%Q 100 = false /\
  @validate QLib (@SensorReading.mk QLib (200 # 1)%Q (200 # 1)%Q)
  = Raise (HTTPException 400 (Literal "Temperature out of valid range")) /\
  @add_reading QLib Example.week Example.now "-Nk7"
     (@SensorReading.mk QLib (200 # 1)%Q (200 # 1)%Q)
  = (Example.week, Raise (HTTPException 400 (Literal "Temperature out of valid range"))).
Proof.
  split; [vm_compute; reflexivity|]. split; [vm_compute; reflexivity|].
  apply (@temperature_checked_first QLib). vm_compute. reflexivity.
Defined.

(** [Example.week] for 24 hours: the six recent readings, by timestamp
    string. *)
Lemma get_readings_window_witness :
  @well_formed QLib Example.week /\
  datetime_in_range Example.now = true /\
  exists l,
    @get_readings QLib Example.week Example.now 24 = Return l /\
    map Reading.timestamp l
    = ["2024-01-15T06:00:00"; "2024-01-15T07:00:00"; "2024-01-15T08:00:00";
       "2024-01-15T09:00:00"; "2024-01-15T10:00:00"; "2024-01-15T11:00:00.250000"].
Proof.
  split; [exact week_well_formed|]. split; [vm_compute; reflexivity|].
  destruct (@get_readings_window QLib Example.week Example.now 24) as [_ Hwindow].
  destruct (Hwindow week_well_formed) as (_ & Hin & _); [vm_compute; reflexivity|].
  destruct Hin as (Hrun & _); [vm_compute; reflexivity|].
  eexists. split; [exact Hrun|]. vm_compute. reflexivity.
Defined.

(** C10 as stated fails for a cutoff outside the datetimes.  With
    100000000 hours every reading of [Example.week] passes the filter and
    the request fails with the 500 error of [OverflowError] instead of
    returning them; with -100000000 hours no reading passes the filter and
    the request fails with the same error instead of returning the empty
    list. *)
Lemma get_readings_overflow_counterexample :
  @well_formed QLib Example.week /\
  datetime_in_range Example.now = true /\
  length (@window QLib Example.week (cutoff Example.now 100000000)) = 7%nat /\
  @get_readings QLib Example.week Example.now 100000000
  = Raise (HTTPException 500 (str OverflowError)) /\
  length (@window QLib Example.week (cutoff Example.now (-100000000))) = 0%nat /\
  @get_readings QLib Example.week Example.now (-100000000)
  = Raise (HTTPException 500 (str OverflowError)).
Proof.
  split; [exact week_well_formed|]. split; [vm_compute; reflexivity|].
  split; [vm_compute; reflexivity|].
  split; [apply get_readings_overflow; [exact week_stored|vm_compute; reflexivity]|].
  split; [vm_compute; reflexivity|].
  apply get_readings_overflow; [exact week_stored|vm_compute; reflexivity].
Qed.

(** ** Further properties of the endpoints *)

Lemma for_each_app {S X : Type} (body : S -> X -> result S) (xs ys : list X) (s : S) :
  for_each body (xs ++ ys) s = (s' <- for_each body xs s ;; for_each body ys s').
Proof.
  revert s. induction xs as [|x xs IH]; intros s; simpl; [reflexivity|].
  destruct (body s x) as [s1|e]; simpl; [apply IH|reflexivity].
Qed.

(** [sorted] keeps, in their order, the elements of a class no two of
    which are strictly ordered: it is a stable sort. *)
Section Stability.
Context {A K : Type} (ltb : K -> K -> bool) (key : A -> K) (p : A -> bool).
Hypothesis p_unordered :
  forall x y, p x = true -> p y = true -> ltb (key y) (key x) = false.

Lemma filter_insert (x : A) (l : list A) :
  filter p (Builtins.insert ltb key x l) = filter p (x :: l).
Proof.
  induction l as [|y l IH]; simpl; [reflexivity|].
  destruct (ltb (key y) (key x)) eqn:E; [|reflexivity].
  simpl. rewrite IH. simpl.
  destruct (p x) eqn:Ex; [|reflexivity].
  destruct (p y) eqn:Ey; [|reflexivity].
  rewrite (p_unordered x y Ex Ey) in E. discriminate.
Qed.

Lemma filter_sorted (l : list A) : filter p (Builtins.sorted ltb key l) = filter p l.
Proof.
  induction l as [|x l IH]; simpl; [reflexivity|].
  rewrite filter_insert. simpl. now rewrite IH.
Qed.

End Stability.

Lemma string_ltb_irrefl (s : string) : String.ltb s s = false.
Proof.
  destruct (String.ltb s s) eqn:E; [|reflexivity].
  now rewrite (string_ltb_asym _ _ E) in E.
Qed.

Lemma filter_length_le {A : Type} (p q : A -> bool) (l : list A) :
  (forall x, In x l -> p x = true -> q x = true) ->
  (length (filter p l) <= length (filter q l))%nat.
Proof.
  induction l as [|x l IH]; intros Hpq; simpl; [lia|].
  assert (IH' : (length (filter p l) <= length (filter q l))%nat).
  { apply IH. intros y Hy. apply Hpq. now right. }
  destruct (p x) eqn:Ep.
  - rewrite (Hpq x (or_introl eq_refl) Ep). simpl. lia.
  - destruct (q x); simpl; lia.
Qed.

Section MoreRuns.
Context `{PyLib}.

Lemma well_formed_app (readings more : store) :
  well_formed readings -> well_formed more -> well_formed (readings ++ more).
Proof. unfold well_formed. intros Hr Hm. apply Forall_app. now split. Qed.

(** [GET /readings] on a well-formed store, with a clock and a cutoff that
    are datetimes: the filtered set, sorted by timestamp string. *)
Lemma get_readings_run (readings : store) (now : datetime) (hours : Z) :
  well_formed readings ->
  datetime_in_range now = true ->
  datetime_in_range (cutoff now hours) = true ->
  get_readings readings now hours
  = Return (Builtins.sorted String.ltb Reading.timestamp
              (window readings (cutoff now hours))).
Proof.
  intros Hwf Hnow Hcut. unfold get_readings.
  destruct readings as [|item readings]; [reflexivity|].
  remember (item :: readings) as store0 eqn:Hstore. clear Hstore.
  rewrite (cutoff_computed _ _ Hnow Hcut). cbn [bind].
  rewrite (readings_loop _ _ Hwf). reflexivity.
Qed.

(** [GET /analysis] on such a store when no reading is recent. *)
Lemma get_analysis_not_found (readings : store) (now : datetime) (hours : Z) :
  well_formed readings ->
  datetime_in_range now = true ->
  datetime_in_range (cutoff now hours) = true ->
  window readings (cutoff now hours) = [] ->
  get_analysis readings now hours
  = Raise (HTTPException 404
             (Literal (match readings with
                       | [] => "No readings found"
                       | _ :: _ => "No recent readings found"
                       end))).
Proof.
  intros Hwf Hnow Hcut Hw. unfold get_analysis.
  destruct readings as [|item readings]; [reflexivity|].
  remember (item :: readings) as store0 eqn:Hstore.
  rewrite (cutoff_computed _ _ Hnow Hcut). cbn [bind].
  rewrite (analysis_loop _ _ Hwf). cbn [bind app]. rewrite Hw. subst store0. reflexivity.
Qed.

(** An answerable request is answered. *)
Lemma get_analysis_found (readings : store) (now : datetime) (hours : Z) :
  answerable readings now hours ->
  exists r, get_analysis readings now hours = Return r.
Proof.
  intros Hreq. pose proof Hreq as (_ & _ & _ & Hw).
  rewrite (get_analysis_answer _ _ _ Hreq).
  destruct (analyse_window hours _ Hw)
    as (? & ? & ? & ? & ? & ? & ? & ? & ? & _ & _ & _ & _ & _ & _ & _ & _ & Hrun).
  eexists. exact Hrun.
Qed.

(** The reading [add_reading] stores for a body. *)
Definition stored_reading (now : datetime) (reading : SensorReading.t) : Reading.t :=
  Reading.mk (SensorReading.temperature reading) (SensorReading.humidity reading)
             (isoformat now).

Lemma add_reading_valid (readings : store) (now : datetime) (key : string)
    (reading : SensorReading.t) :
  between (-50) (SensorReading.temperature reading) 150 = true ->
  between 0 (SensorReading.humidity reading) 100 = true ->
  add_reading readings now key reading
  = (readings ++ [(key, stored_reading now reading)],
     Return (Recorded.mk "success" "Reading recorded" (stored_reading now reading))).
Proof.
  intros Ht Hh. unfold add_reading, validate. rewrite Ht, Hh. reflexivity.
Qed.

Lemma stored_reading_well_formed (now : datetime) (key : string)
    (reading : SensorReading.t) :
  (exists d, fromisoformat (isoformat now) = Return d) ->
  well_formed [(key, stored_reading now reading)].
Proof. intros Hiso. constructor; [exact Hiso|constructor]. Qed.

Lemma stored_reading_recent (now cutoff_time : datetime) (reading : SensorReading.t) :
  fromisoformat (isoformat now) = Return now ->
  cutoff_time < now ->
  recent cutoff_time (stored_reading now reading) = true.
Proof.
  intros Hiso Hlt. unfold recent, stored_reading. cbn [Reading.timestamp].
  rewrite Hiso. now apply Z.ltb_lt.
Qed.

End MoreRuns.

Section MoreProperties.
Context `{PyLib}.

(** X1.  A reading that passes the range checks is stored with its
    temperature and humidity unchanged and with the ISO string of the
    clock; when that string reads back as the clock, every later
    [GET /readings] whose cutoff is a datetime before the time of the
    insertion returns the stored reading. *)
Theorem add_then_get_readings (readings : store) (now : datetime) (key : string)
    (reading : SensorReading.t) (later : datetime) (hours : Z) :
  between (-50) (SensorReading.temperature reading) 150 = true ->
  between 0 (SensorReading.humidity reading) 100 = true ->
  well_formed readings ->
  fromisoformat (isoformat now) = Return now ->
  datetime_in_range later = true ->
  datetime_in_range (cutoff later hours) = true ->
  cutoff later hours < now ->
  exists stored response answer,
    add_reading readings now key reading
    = (readings ++ [(key, stored)], Return response) /\
    Reading.temperature stored = SensorReading.temperature reading /\
    Reading.humidity stored = SensorReading.humidity reading /\
    Reading.timestamp stored = isoformat now /\
    Recorded.status response = "success" /\
    Recorded.data response = stored /\
    get_readings (readings ++ [(key, stored)]) later hours = Return answer /\
    In stored answer.
Proof.
  intros Ht Hh Hwf Hiso Hlater Hcut Hlt.
  exists (stored_reading now reading),
    (Recorded.mk "success" "Reading recorded" (stored_reading now reading)),
    (Builtins.sorted String.ltb Reading.timestamp
       (window (readings ++ [(key, stored_reading now reading)]) (cutoff later hours))).
  split; [now apply add_reading_valid|].
  repeat (split; [reflexivity|]).
  assert (Hwf' : well_formed (readings ++ [(key, stored_reading now reading)])).
  { apply well_formed_app; [exact Hwf|].
    apply stored_reading_well_formed. now exists now. }
  split; [now apply get_readings_run|].
  apply (Permutation_in _ (Permutation_sym (sorted_perm _ _ _))).
  unfold window. apply filter_In. split.
  - rewrite map_app. apply in_or_app. right. now left.
  - now apply stored_reading_recent.
Qed.

(** X2.  [add_reading] only appends: the stored readings stay as they
    were, in their order, followed by at most one new reading; and when
    the ISO string of the clock is a timestamp, a store of well-formed
    readings stays one, whether the body is accepted or rejected. *)
Theorem add_reading_appends (readings : store) (now : datetime) (key : string)
    (reading : SensorReading.t) :
  (exists d, fromisoformat (isoformat now) = Return d) ->
  well_formed readings ->
  exists more,
    fst (add_reading readings now key reading) = readings ++ more /\
    (length more <= 1)%nat /\
    (more = [] <-> exists e, snd (add_reading readings now key reading) = Raise e) /\
    well_formed (fst (add_reading readings now key reading)).
Proof.
  intros Hiso Hwf. unfold add_reading.
  destruct (validate reading) as [[]|e] eqn:Ev.
  - exists [(key, stored_reading now reading)]. cbn [fst snd].
    split; [reflexivity|]. split; [simpl; lia|]. split.
    + split; [discriminate|]. intros [e He]. discriminate.
    + apply well_formed_app; [exact Hwf|]. now apply stored_reading_well_formed.
  - exists []. cbn [fst snd]. rewrite app_nil_r.
    split; [reflexivity|]. split; [simpl; lia|]. split; [|exact Hwf].
    split; [|reflexivity]. intros _.
    unfold validate in Ev.
    destruct (negb (between (-50) (SensorReading.temperature reading) 150));
      [injection Ev as <-; eexists; reflexivity|].
    destruct (negb (between 0 (SensorReading.humidity reading) 100));
      [injection Ev as <-; eexists; reflexivity|discriminate].
Qed.

(** X3.  After [clear_all_readings], whatever the store held,
    [GET /readings] returns the empty list and [GET /analysis] fails with
    the 404 error; after one accepted reading more, a request whose
    window reaches the insertion is answered with a count of one, the
    trend "→ Stable" for both metrics and no anomaly. *)
Theorem clear_then_add (readings : store) (now : datetime) (key : string)
    (reading : SensorReading.t) (later : datetime) (hours : Z) :
  between (-50) (SensorReading.temperature reading) 150 = true ->
  between 0 (SensorReading.humidity reading) 100 = true ->
  fromisoformat (isoformat now) = Return now ->
  datetime_in_range later = true ->
  datetime_in_range (cutoff later hours) = true ->
  cutoff later hours < now ->
  let cleared := fst (clear_all_readings readings) in
  let refilled := fst (add_reading cleared now key reading) in
  get_readings cleared later hours = Return [] /\
  get_analysis cleared later hours
  = Raise (HTTPException 404 (Literal "No readings found")) /\
  exists r,
    get_analysis refilled later hours = Return r /\
    Analysis.readings_count r = 1 /\
    Stats.trend (Analysis.temperature r) = "→ Stable" /\
    Stats.trend (Analysis.humidity r) = "→ Stable" /\
    Analysis.anomalies r = [].
Proof.
  intros Ht Hh Hiso Hlater Hcut Hlt cleared refilled.
  split; [reflexivity|]. split; [reflexivity|].
  subst cleared refilled. cbn [clear_all_readings fst].
  rewrite (add_reading_valid [] now key reading Ht Hh). cbn [fst app].
  assert (Hwindow : window [(key, stored_reading now reading)] (cutoff later hours)
                    = [stored_reading now reading]).
  { unfold window. cbn [map snd filter].
    now rewrite (stored_reading_recent now _ reading Hiso Hlt). }
  assert (Hreq : answerable [(key, stored_reading now reading)] later hours).
  { split; [apply stored_reading_well_formed; now exists now|].
    split; [exact Hlater|]. split; [exact Hcut|]. rewrite Hwindow. discriminate. }
  rewrite (get_analysis_answer _ _ _ Hreq), Hwindow.
  unfold analyse. cbn [map length Builtins.zip Builtins.sorted Builtins.insert].
  destruct (mean_cons (SensorReading.temperature reading) []) as [avg_temp Eat].
  destruct (mean_cons (SensorReading.humidity reading) []) as [avg_humidity Eah].
  cbn [stored_reading Reading.temperature Reading.humidity].
  rewrite Eat, Eah. cbn.
  eexists. split; [reflexivity|]. repeat split.
Qed.

End MoreProperties.

Section LibraryErrors.
Context `{PyLib}.

(** An exception of the library, as opposed to an [HTTPException]. *)
Definition library_error (e : exn) : Prop :=
  match e with
  | HTTPException _ _ => False
  | _ => True
  end.

Lemma bind_Raise {A B : Type} (m : result A) (k : A -> result B) (e : exn) :
  bind m k = Raise e -> m = Raise e \/ exists a, m = Return a /\ k a = Raise e.
Proof.
  destruct m as [a|e']; simpl; intros Hk; [right; now exists a|left; congruence].
Qed.

Lemma mean_Raise (l : list num) (e : exn) : mean l = Raise e -> library_error e.
Proof.
  destruct l as [|x l]; intros Hm.
  - rewrite mean_empty in Hm. injection Hm as <-. exact I.
  - destruct (mean_cons x l) as [m Em]. congruence.
Qed.

Lemma stdev_Raise (l : list num) (e : exn) : stdev l = Raise e -> library_error e.
Proof.
  destruct l as [|x [|y l]]; intros Hs.
  - rewrite stdev_short in Hs by (simpl; lia). injection Hs as <-. exact I.
  - rewrite stdev_short in Hs by (simpl; lia). injection Hs as <-. exact I.
  - destruct (stdev_cons x y l) as [s Es]. congruence.
Qed.

Lemma max_Raise (l : list num) (e : exn) : Builtins.max l = Raise e -> library_error e.
Proof. destruct l; simpl; intros [= <-]. exact I. Qed.

Lemma min_Raise (l : list num) (e : exn) : Builtins.min l = Raise e -> library_error e.
Proof. destruct l; simpl; intros [= <-]. exact I. Qed.

Lemma half_trend_Raise {D : Type} (column : D -> num) (rows : list D) (e : exn) :
  half_trend column rows = Raise e -> library_error e.
Proof.
  unfold half_trend. intros Hrun.
  apply bind_Raise in Hrun. destruct Hrun as [Hm|(m2 & _ & Hrun)];
    [eapply mean_Raise, Hm|].
  apply bind_Raise in Hrun. destruct Hrun as [Hm|(m1 & _ & Hrun)];
    [eapply mean_Raise, Hm|discriminate].
Qed.

Lemma trends_Raise (rows : list (datetime * num * num)) (e : exn) :
  trends rows = Raise e -> library_error e.
Proof.
  unfold trends. destruct (1 <? length rows)%nat; [|discriminate]. intros Hrun.
  apply bind_Raise in Hrun. destruct Hrun as [Hm|(t1 & _ & Hrun)];
    [eapply half_trend_Raise, Hm|].
  apply bind_Raise in Hrun. destruct Hrun as [Hm|(t2 & _ & Hrun)];
    [eapply half_trend_Raise, Hm|discriminate].
Qed.

Lemma detect_anomalies_Raise (temps humidities : list num) (avg_temp avg_humidity : num)
    (rows : list (datetime * num * num)) (e : exn) :
  detect_anomalies temps humidities avg_temp avg_humidity rows = Raise e ->
  library_error e.
Proof.
  unfold detect_anomalies. destruct (2 <? length temps)%nat; [|discriminate].
  intros Hrun.
  apply bind_Raise in Hrun. destruct Hrun as [Hs|(s1 & _ & Hrun)];
    [eapply stdev_Raise, Hs|].
  apply bind_Raise in Hrun. destruct Hrun as [Hs|(s2 & _ & Hrun)];
    [eapply stdev_Raise, Hs|discriminate].
Qed.

Lemma analyse_Raise (hours : Z) (temps humidities : list num) (timestamps : list datetime)
    (e : exn) :
  analyse hours temps humidities timestamps = Raise e -> library_error e.
Proof.
  unfold analyse. intros Hrun.
  apply bind_Raise in Hrun. destruct Hrun as [Hm|(? & _ & Hrun)]; [eapply mean_Raise, Hm|].
  apply bind_Raise in Hrun. destruct Hrun as [Hm|(? & _ & Hrun)]; [eapply mean_Raise, Hm|].
  apply bind_Raise in Hrun. destruct Hrun as [Hm|(? & _ & Hrun)]; [eapply max_Raise, Hm|].
  apply bind_Raise in Hrun. destruct Hrun as [Hm|(? & _ & Hrun)]; [eapply min_Raise, Hm|].
  apply bind_Raise in Hrun. destruct Hrun as [Hm|(? & _ & Hrun)]; [eapply max_Raise, Hm|].
  apply bind_Raise in Hrun. destruct Hrun as [Hm|(? & _ & Hrun)]; [eapply min_Raise, Hm|].
  apply bind_Raise in Hrun. destruct Hrun as [Hm|([? ?] & _ & Hrun)];
    [eapply trends_Raise, Hm|].
  apply bind_Raise in Hrun. destruct Hrun as [Hm|(? & _ & Hrun)];
    [eapply detect_anomalies_Raise, Hm|discriminate].
Qed.

Lemma cutoff_time_of_Raise (now : datetime) (hours : Z) (e : exn) :
  cutoff_time_of now hours = Raise e -> e = OverflowError.
Proof.
  unfold cutoff_time_of, timedelta_hours, datetime_sub.
  destruct (Z.abs (hours / 24) <=? 999999999); simpl; [|congruence].
  destruct (datetime_in_range (now - hours * us_per_hour)); congruence.
Qed.

Lemma analysis_loop_Raise (cutoff_time : datetime) (readings : store) (e : exn) :
  (forall s e', fromisoformat s = Raise e' -> library_error e') ->
  forall acc,
    for_each (get_analysis_body cutoff_time) readings acc = Raise e -> library_error e.
Proof.
  intros Hlib. induction readings as [|[key reading] readings IH]; intros acc Hrun;
    [discriminate|].
  simpl in Hrun. apply bind_Raise in Hrun.
  destruct Hrun as [Hbody|(acc' & _ & Hrun)]; [|eapply IH, Hrun].
  destruct acc as [[temps humidities] timestamps].
  unfold get_analysis_body in Hbody. cbn [snd] in Hbody.
  apply bind_Raise in Hbody. destruct Hbody as [Hparse|(d & _ & Hbody)].
  - eapply Hlib, Hparse.
  - destruct (cutoff_time <? d); discriminate.
Qed.

End LibraryErrors.

Section Consistency.
Context `{PyLib}.

(** X4.  For an answerable request the two [GET] endpoints agree: the
    [readings_count] of the analysis is the number of readings
    [GET /readings] returns for the same store, clock and hours, and the
    anomalies are never more than these readings. *)
Theorem count_matches_readings (readings : store) (now : datetime) (hours : Z) :
  answerable readings now hours ->
  exists r l,
    get_analysis readings now hours = Return r /\
    get_readings readings now hours = Return l /\
    Analysis.readings_count r = Z.of_nat (length l) /\
    (length (Analysis.anomalies r) <= length l)%nat.
Proof.
  intros Hreq. pose proof Hreq as (Hwf & Hnow & Hcut & Hw).
  destruct (anomalies_of_answer _ _ _ Hreq)
    as (r & avg_temp & avg_humidity & Hrun & _ & _ & Hfew & Hmany).
  destruct (answer_of_request _ _ _ Hreq)
    as (? & ? & ? & ? & ? & ? & ? & ? & ? & _ & _ & _ & _ & _ & _ & Hfields).
  assert (Hcount : Analysis.readings_count r
                   = Z.of_nat (length (window readings (cutoff now hours)))).
  { rewrite Hrun in Hfields. injection Hfields as ->. reflexivity. }
  exists r, (Builtins.sorted String.ltb Reading.timestamp
               (window readings (cutoff now hours))).
  split; [exact Hrun|]. split; [now apply get_readings_run|].
  rewrite sorted_length. split; [exact Hcount|].
  destruct (le_lt_dec (length (window readings (cutoff now hours))) 2) as [Hle|Hlt].
  - rewrite (Hfew Hle). simpl. lia.
  - destruct (Hmany Hlt) as (temp_std & humidity_std & _ & _ & ->).
    rewrite length_firstn, length_map.
    pose proof (filter_length_le
                  (qualifies avg_temp temp_std avg_humidity humidity_std)
                  (fun _ => true) (sorted_data readings now hours)
                  (fun _ _ _ => eq_refl)) as Hbound.
    rewrite (forallb_filter_id (fun _ => true)) in Hbound
      by (apply forallb_forall; reflexivity).
    rewrite sorted_data_length in Hbound. lia.
Qed.

(** X5.  On a store of well-formed readings, with a clock and a cutoff
    that are datetimes, [GET /readings] returns the empty list exactly
    when [GET /analysis] fails with a 404 error. *)
Theorem empty_list_iff_not_found (readings : store) (now : datetime) (hours : Z) :
  well_formed readings ->
  datetime_in_range now = true ->
  datetime_in_range (cutoff now hours) = true ->
  get_readings readings now hours = Return [] <->
  exists d, get_analysis readings now hours = Raise (HTTPException 404 d).
Proof.
  intros Hwf Hnow Hcut. rewrite (get_readings_run _ _ _ Hwf Hnow Hcut).
  destruct (window readings (cutoff now hours)) as [|reading0 w] eqn:Ew.
  - split; [|reflexivity]. intros _.
    rewrite (get_analysis_not_found _ _ _ Hwf Hnow Hcut Ew). eexists. reflexivity.
  - split.
    + intros Hsorted.
      assert (Hnil : Builtins.sorted String.ltb Reading.timestamp (reading0 :: w) = [])
        by congruence.
      pose proof (sorted_perm String.ltb Reading.timestamp (reading0 :: w)) as Hperm.
      rewrite Hnil in Hperm. apply Permutation_nil in Hperm. discriminate.
    + intros [d Hfail].
      destruct (get_analysis_found readings now hours) as [r Hrun]; [|congruence].
      repeat split; try assumption. rewrite Ew. discriminate.
Qed.

(** X6.  The comfort score is one of 0, 25, 50, 75 and 100, and the level
    is read off it: "Excellent" exactly for 100, which takes an optimal
    mean temperature and an optimal mean humidity, "Good" exactly for 75,
    "Fair" exactly for 50 and "Poor" exactly for 25 and 0. *)
Theorem comfort_score_values (avg_temp avg_humidity : num) :
  let c := comfort_analysis avg_temp avg_humidity in
  In (Comfort.score c) [0; 25; 50; 75; 100] /\
  (Comfort.level c = "Excellent" <-> Comfort.score c = 100) /\
  (Comfort.level c = "Good" <-> Comfort.score c = 75) /\
  (Comfort.level c = "Fair" <-> Comfort.score c = 50) /\
  (Comfort.level c = "Poor" <-> Comfort.score c <= 25) /\
  (Comfort.score c = 100 <->
   between 18 avg_temp 24 = true /\ between 40 avg_humidity 60 = true).
Proof.
  unfold comfort_analysis.
  destruct (between 18 avg_temp 24), (between 15 avg_temp 30),
    (between 40 avg_humidity 60), (between 30 avg_humidity 70);
    cbn; repeat split; intros; try lia; try discriminate; try tauto;
    try (match goal with Hc : _ /\ _ |- _ => destruct Hc; discriminate end).
Qed.

(** X7.  One stored timestamp that [fromisoformat] rejects with
    [ValueError] makes both [GET] endpoints fail with the 500 error of
    that exception, whatever the other readings are and however old the
    rejected one is. *)
Theorem malformed_timestamp_fails (good : store) (key : string) (bad : Reading.t)
    (rest : store) (now : datetime) (hours : Z) :
  well_formed good ->
  fromisoformat (Reading.timestamp bad) = Raise ValueError ->
  datetime_in_range now = true ->
  datetime_in_range (cutoff now hours) = true ->
  get_readings (good ++ (key, bad) :: rest) now hours
  = Raise (HTTPException 500 (str ValueError)) /\
  get_analysis (good ++ (key, bad) :: rest) now hours
  = Raise (HTTPException 500 (str ValueError)).
Proof.
  intros Hwf Hbad Hnow Hcut. unfold get_readings, get_analysis.
  destruct (good ++ (key, bad) :: rest) as [|item store0] eqn:Hstore.
  { symmetry in Hstore. exfalso. exact (app_cons_not_nil _ _ _ Hstore). }
  rewrite <- Hstore. clear Hstore.
  rewrite (cutoff_computed _ _ Hnow Hcut). cbn [bind].
  rewrite !for_each_app, (readings_loop _ _ Hwf), (analysis_loop _ _ Hwf).
  cbn [bind for_each]. unfold get_readings_body, get_analysis_body. cbn [snd].
  rewrite Hbad. split; reflexivity.
Qed.

(** X8.  [GET /readings] sorts stably: the returned readings that share a
    timestamp string are exactly the recent stored readings with that
    string, in the order of the store. *)
Theorem equal_timestamps_keep_store_order (readings : store) (now : datetime)
    (hours : Z) (ts : string) :
  well_formed readings ->
  datetime_in_range now = true ->
  datetime_in_range (cutoff now hours) = true ->
  exists answer,
    get_readings readings now hours = Return answer /\
    filter (fun reading => String.eqb ts (Reading.timestamp reading)) answer
    = filter (fun reading => String.eqb ts (Reading.timestamp reading))
             (window readings (cutoff now hours)).
Proof.
  intros Hwf Hnow Hcut. eexists. split; [now apply get_readings_run|].
  apply filter_sorted. intros x y Hx Hy.
  apply String.eqb_eq in Hx, Hy. rewrite <- Hx, <- Hy. apply string_ltb_irrefl.
Qed.

(** X9.  Widening the window never loses a reading: for [hours1 <=
    hours2], every reading [GET /readings] returns for [hours1] is
    returned for [hours2], and the second list is at least as long. *)
Theorem wider_window_keeps_readings (readings : store) (now : datetime)
    (hours1 hours2 : Z) :
  well_formed readings ->
  datetime_in_range now = true ->
  datetime_in_range (cutoff now hours1) = true ->
  datetime_in_range (cutoff now hours2) = true ->
  hours1 <= hours2 ->
  exists l1 l2,
    get_readings readings now hours1 = Return l1 /\
    get_readings readings now hours2 = Return l2 /\
    incl l1 l2 /\
    (length l1 <= length l2)%nat.
Proof.
  intros Hwf Hnow Hcut1 Hcut2 Hle.
  assert (Hrecent : forall reading,
             recent (cutoff now hours1) reading = true ->
             recent (cutoff now hours2) reading = true).
  { intros reading. unfold recent, cutoff, us_per_hour.
    destruct (fromisoformat (Reading.timestamp reading)); [|discriminate].
    rewrite !Z.ltb_lt. lia. }
  do 2 eexists. split; [now apply get_readings_run|].
  split; [now apply get_readings_run|]. split.
  - intros reading Hin.
    apply (Permutation_in _ (sorted_perm _ _ _)) in Hin.
    apply (Permutation_in _ (Permutation_sym (sorted_perm _ _ _))).
    unfold window in *. apply filter_In in Hin. apply filter_In.
    split; [apply Hin|apply Hrecent, Hin].
  - rewrite !sorted_length. unfold window. apply filter_length_le.
    intros reading _. apply Hrecent.
Qed.

(** X10.  With [hours <= 0] and no stored reading stamped after the
    clock, nothing is recent: [GET /readings] returns the empty list and
    [GET /analysis] fails with a 404 error. *)
Theorem no_hours_no_readings (readings : store) (now : datetime) (hours : Z) :
  well_formed readings ->
  datetime_in_range now = true ->
  datetime_in_range (cutoff now hours) = true ->
  hours <= 0 ->
  (forall item, In item readings -> moment (snd item) <= now) ->
  get_readings readings now hours = Return [] /\
  exists d, get_analysis readings now hours = Raise (HTTPException 404 d).
Proof.
  intros Hwf Hnow Hcut Hle Hpast.
  assert (Hw : window readings (cutoff now hours) = []).
  { unfold window. destruct (filter _ _) as [|reading w] eqn:Ef; [reflexivity|].
    assert (Hin : In reading (filter (recent (cutoff now hours)) (map snd readings)))
      by (rewrite Ef; now left).
    apply filter_In in Hin. destruct Hin as [Hin Hrecent].
    apply in_map_iff in Hin. destruct Hin as (item & <- & Hitem).
    specialize (Hpast item Hitem). unfold recent in Hrecent. unfold moment in Hpast.
    destruct (fromisoformat (Reading.timestamp (snd item))); [|discriminate].
    apply Z.ltb_lt in Hrecent. unfold cutoff, us_per_hour in Hrecent. lia. }
  split.
  - rewrite (get_readings_run _ _ _ Hwf Hnow Hcut), Hw. reflexivity.
  - rewrite (get_analysis_not_found _ _ _ Hwf Hnow Hcut Hw). eexists. reflexivity.
Qed.

(** X11.  When [fromisoformat] raises only exceptions of the library,
    every failure of [GET /analysis] is an [HTTPException] of status 404
    or 500 and every failure of [GET /readings] is an [HTTPException] of
    status 500, for every store, clock and hours. *)
Theorem failure_statuses (readings : store) (now : datetime) (hours : Z) (e : exn) :
  (forall s e', fromisoformat s = Raise e' -> library_error e') ->
  (get_analysis readings now hours = Raise e ->
   exists d, e = HTTPException 404 d \/ e = HTTPException 500 d) /\
  (get_readings readings now hours = Raise e ->
   exists d, e = HTTPException 500 d).
Proof.
  intros Hlib. split.
  - unfold get_analysis.
    assert (Hlibrary : forall (m : result Analysis.t) e0,
               m = Raise e0 -> library_error e0 ->
               except_http m = Raise e -> exists d, e = HTTPException 500 d).
    { intros m e0 -> He0. destruct e0; simpl in *; try contradiction;
        intros [= <-]; eexists; reflexivity. }
    destruct readings as [|item readings].
    { simpl. intros [= <-]. eexists. left. reflexivity. }
    remember (item :: readings) as store0 eqn:Hstore. clear Hstore.
    destruct (cutoff_time_of now hours) as [c|e0] eqn:Ec; cbn [bind].
    2:{ apply cutoff_time_of_Raise in Ec. subst e0. simpl. intros [= <-].
        eexists. right. reflexivity. }
    destruct (for_each (get_analysis_body c) store0 ([], [], []))
      as [[[temps humidities] timestamps]|e0] eqn:Eloop; cbn [bind].
    2:{ intros Hfail. destruct (Hlibrary (Raise e0) e0 eq_refl) as [d ->];
          [eapply analysis_loop_Raise; eassumption|exact Hfail|].
        eexists. right. reflexivity. }
    destruct temps as [|t temps].
    { simpl. intros [= <-]. eexists. left. reflexivity. }
    destruct (analyse hours (t :: temps) humidities timestamps) as [r|e0] eqn:Ea.
    { discriminate. }
    intros Hfail. destruct (Hlibrary (Raise e0) e0 eq_refl) as [d ->];
      [eapply analyse_Raise; eassumption|exact Hfail|].
    eexists. right. reflexivity.
  - unfold get_readings, except_exception.
    destruct (match readings with [] => _ | _ :: _ => _ end) as [l|e0]; [discriminate|].
    intros [= <-]. eexists. reflexivity.
Qed.

End Consistency.

(** ** The further properties on the concrete stores *)

(** A body inside both ranges, and the clock one minute after
    [Example.now]. *)
Definition mild : @SensorReading.t QLib := @SensorReading.mk QLib (22 # 1)%Q (48 # 1)%Q.
Definition a_minute_later : datetime := Example.now + 60000000.

(** Two readings with one timestamp string around an earlier one. *)
Definition twins : @store QLib :=
  [("-Nt0", Example.reading 25 40 "2024-01-15T09:00:00");
   ("-Nt1", Example.reading 21 50 "2024-01-15T08:00:00");
   ("-Nt2", Example.reading 23 60 "2024-01-15T09:00:00")].

(** [Example.week] followed by a reading whose timestamp is no ISO
    string. *)
Definition yesterday : @Reading.t QLib := Example.reading 21 50 "yesterday".

Lemma twins_well_formed : @well_formed QLib twins.
Proof. apply well_formed_check. vm_compute. reflexivity. Qed.

Lemma now_reads_back :
  @fromisoformat QLib (@isoformat QLib Example.now) = Return Example.now.
Proof. vm_compute. reflexivity. Qed.

Lemma QLib_library_errors (s : string) (e : exn) :
  @fromisoformat QLib s = Raise e -> library_error e.
Proof.
  cbn [fromisoformat QLib]. unfold IsoFormat.fromisoformat.
  destruct (IsoFormat.parse s); intros [= <-]. exact I.
Qed.

Lemma add_then_get_readings_witness :
  @between QLib (-50) (22 # 1)%Q 150 = true /\
  @between QLib 0 (48 # 1)%Q 100 = true /\
  @well_formed QLib Example.week /\
  datetime_in_range a_minute_later = true /\
  datetime_in_range (cutoff a_minute_later 1) = true /\
  cutoff a_minute_later 1 < Example.now /\
  exists stored answer,
    fst (@add_reading QLib Example.week Example.now "-Nk7" mild)
    = Example.week ++ [("-Nk7", stored)] /\
    Reading.temperature stored = (22 # 1)%Q /\
    Reading.humidity stored = (48 # 1)%Q /\
    Reading.timestamp stored = "2024-01-15T12:00:00" /\
    @get_readings QLib (Example.week ++ [("-Nk7", stored)]) a_minute_later 1
    = Return answer /\
    In stored answer.
Proof.
  assert (Ht : @between QLib (-50) (22 # 1)%Q 150 = true) by (vm_compute; reflexivity).
  assert (Hh : @between QLib 0 (48 # 1)%Q 100 = true) by (vm_compute; reflexivity).
  assert (Hlater : datetime_in_range a_minute_later = true) by (vm_compute; reflexivity).
  assert (Hcut : datetime_in_range (cutoff a_minute_later 1) = true)
    by (vm_compute; reflexivity).
  assert (Hlt : cutoff a_minute_later 1 < Example.now) by (vm_compute; reflexivity).
  repeat (split; [assumption || exact week_well_formed|]).
  destruct (@add_then_get_readings QLib Example.week Example.now "-Nk7" mild
              a_minute_later 1 Ht Hh week_well_formed now_reads_back Hlater Hcut Hlt)
    as (stored & response & answer & Hadd & Etemp & Ehum & Ets & _ & _ & Hget & Hin).
  exists stored, answer.
  split; [now rewrite Hadd|]. split; [exact Etemp|]. split; [exact Ehum|].
  split; [rewrite Ets; vm_compute; reflexivity|]. split; assumption.
Defined.

Lemma add_reading_appends_witness :
  (exists d, @fromisoformat QLib (@isoformat QLib Example.now) = Return d) /\
  @well_formed QLib Example.week /\
  @well_formed QLib (fst (@add_reading QLib Example.week Example.now "-Nk7" mild)) /\
  exists more,
    fst (@add_reading QLib Example.week Example.now "-Nk7" mild) = Example.week ++ more /\
    (length more <= 1)%nat.
Proof.
  assert (Hiso : exists d, @fromisoformat QLib (@isoformat QLib Example.now) = Return d)
    by (exists Example.now; exact now_reads_back).
  split; [exact Hiso|]. split; [exact week_well_formed|].
  destruct (@add_reading_appends QLib Example.week Example.now "-Nk7" mild Hiso
              week_well_formed) as (more & Hfst & Hlen & _ & Hwf).
  split; [exact Hwf|]. exists more. now split.
Defined.

Lemma clear_then_add_witness :
  @between QLib (-50) (22 # 1)%Q 150 = true /\
  @between QLib 0 (48 # 1)%Q 100 = true /\
  datetime_in_range a_minute_later = true /\
  datetime_in_range (cutoff a_minute_later 1) = true /\
  cutoff a_minute_later 1 < Example.now /\
  @get_readings QLib (fst (@clear_all_readings QLib Example.week)) a_minute_later 1
  = Return [] /\
  exists r,
    @get_analysis QLib
       (fst (@add_reading QLib (fst (@clear_all_readings QLib Example.week))
               Example.now "-Nk7" mild))
       a_minute_later 1
    = Return r /\
    Analysis.readings_count r = 1 /\
    Stats.trend (Analysis.temperature r) = "→ Stable".
Proof.
  assert (Ht : @between QLib (-50) (22 # 1)%Q 150 = true) by (vm_compute; reflexivity).
  assert (Hh : @between QLib 0 (48 # 1)%Q 100 = true) by (vm_compute; reflexivity).
  assert (Hlater : datetime_in_range a_minute_later = true) by (vm_compute; reflexivity).
  assert (Hcut : datetime_in_range (cutoff a_minute_later 1) = true)
    by (vm_compute; reflexivity).
  assert (Hlt : cutoff a_minute_later 1 < Example.now) by (vm_compute; reflexivity).
  repeat (split; [assumption|]).
  destruct (@clear_then_add QLib Example.week Example.now "-Nk7" mild a_minute_later 1
              Ht Hh now_reads_back Hlater Hcut Hlt)
    as (Hempty & _ & r & Hrun & Hcount & Htrend & _).
  split; [exact Hempty|]. exists r. repeat split; assumption.
Defined.

Lemma count_matches_readings_witness :
  @answerable QLib Example.week Example.now 24 /\
  exists r l,
    @get_analysis QLib Example.week Example.now 24 = Return r /\
    @get_readings QLib Example.week Example.now 24 = Return l /\
    Analysis.readings_count r = Z.of_nat (length l) /\
    (length (Analysis.anomalies r) <= length l)%nat.
Proof.
  split; [exact week_answerable|].
  exact (@count_matches_readings QLib Example.week Example.now 24 week_answerable).
Defined.

Lemma empty_list_iff_not_found_witness :
  @well_formed QLib Example.week /\
  datetime_in_range Example.now = true /\
  datetime_in_range (cutoff Example.now 0) = true /\
  @get_readings QLib Example.week Example.now 0 = Return [] /\
  exists d, @get_analysis QLib Example.week Example.now 0 = Raise (HTTPException 404 d).
Proof.
  assert (Hnow : datetime_in_range Example.now = true) by (vm_compute; reflexivity).
  assert (Hcut : datetime_in_range (cutoff Example.now 0) = true)
    by (vm_compute; reflexivity).
  split; [exact week_well_formed|]. split; [exact Hnow|]. split; [exact Hcut|].
  assert (Hempty : @get_readings QLib Example.week Example.now 0 = Return []).
  { rewrite (get_readings_run _ _ _ week_well_formed Hnow Hcut).
    replace (@window QLib Example.week (cutoff Example.now 0)) with (@nil (@Reading.t QLib));
      [reflexivity|].
    symmetry. apply length_zero_iff_nil. vm_compute. reflexivity. }
  split; [exact Hempty|].
  apply (@empty_list_iff_not_found QLib Example.week Example.now 0 week_well_formed
           Hnow Hcut).
  exact Hempty.
Defined.

Lemma malformed_timestamp_fails_witness :
  @well_formed QLib Example.week /\
  @fromisoformat QLib (Reading.timestamp yesterday) = Raise ValueError /\
  datetime_in_range Example.now = true /\
  datetime_in_range (cutoff Example.now 24) = true /\
  @get_readings QLib (Example.week ++ [("-Nk7", yesterday)]) Example.now 24
  = Raise (HTTPException 500 (str ValueError)) /\
  @get_analysis QLib (Example.week ++ [("-Nk7", yesterday)]) Example.now 24
  = Raise (HTTPException 500 (str ValueError)).
Proof.
  assert (Hbad : @fromisoformat QLib (Reading.timestamp yesterday) = Raise ValueError)
    by (vm_compute; reflexivity).
  assert (Hnow : datetime_in_range Example.now = true) by (vm_compute; reflexivity).
  assert (Hcut : datetime_in_range (cutoff Example.now 24) = true)
    by (vm_compute; reflexivity).
  split; [exact week_well_formed|]. split; [exact Hbad|].
  split; [exact Hnow|]. split; [exact Hcut|].
  exact (@malformed_timestamp_fails QLib Example.week "-Nk7" yesterday [] Example.now 24
           week_well_formed Hbad Hnow Hcut).
Defined.

(** In [twins] the two readings of 09:00 come back after the one of
    08:00, the 25 degrees first as in the store. *)
Lemma equal_timestamps_keep_store_order_witness :
  @well_formed QLib twins /\
  datetime_in_range Example.now = true /\
  datetime_in_range (cutoff Example.now 24) = true /\
  exists answer,
    @get_readings QLib twins Example.now 24 = Return answer /\
    map Reading.temperature
        (filter (fun reading => String.eqb "2024-01-15T09:00:00"
                                           (Reading.timestamp reading)) answer)
    = [(25 # 1)%Q; (23 # 1)%Q].
Proof.
  assert (Hnow : datetime_in_range Example.now = true) by (vm_compute; reflexivity).
  assert (Hcut : datetime_in_range (cutoff Example.now 24) = true)
    by (vm_compute; reflexivity).
  split; [exact twins_well_formed|]. split; [exact Hnow|]. split; [exact Hcut|].
  destruct (@equal_timestamps_keep_store_order QLib twins Example.now 24
              "2024-01-15T09:00:00" twins_well_formed Hnow Hcut)
    as (answer & Hget & Hsame).
  exists answer. split; [exact Hget|]. rewrite Hsame. vm_compute. reflexivity.
Defined.

Lemma wider_window_keeps_readings_witness :
  @well_formed QLib Example.week /\
  datetime_in_range Example.now = true /\
  datetime_in_range (cutoff Example.now 24) = true /\
  datetime_in_range (cutoff Example.now 240) = true /\
  24 <= 240 /\
  exists l1 l2,
    @get_readings QLib Example.week Example.now 24 = Return l1 /\
    @get_readings QLib Example.week Example.now 240 = Return l2 /\
    incl l1 l2 /\
    (length l1 <= length l2)%nat.
Proof.
  assert (Hnow : datetime_in_range Example.now = true) by (vm_compute; reflexivity).
  assert (Hcut1 : datetime_in_range (cutoff Example.now 24) = true)
    by (vm_compute; reflexivity).
  assert (Hcut2 : datetime_in_range (cutoff Example.now 240) = true)
    by (vm_compute; reflexivity).
  assert (Hle : 24 <= 240) by lia.
  split; [exact week_well_formed|]. repeat (split; [assumption|]).
  exact (@wider_window_keeps_readings QLib Example.week Example.now 24 240
           week_well_formed Hnow Hcut1 Hcut2 Hle).
Defined.

Lemma week_in_the_past (item : string * @Reading.t QLib) :
  In item Example.week -> @moment QLib (snd item) <= Example.now.
Proof.
  unfold Example.week. intros Hin.
  repeat (destruct Hin as [<-|Hin]; [vm_compute; discriminate|]).
  destruct Hin.
Qed.

Lemma no_hours_no_readings_witness :
  @well_formed QLib Example.week /\
  datetime_in_range Example.now = true /\
  datetime_in_range (cutoff Example.now (-6)) = true /\
  -6 <= 0 /\
  @get_readings QLib Example.week Example.now (-6) = Return [] /\
  exists d,
    @get_analysis QLib Example.week Example.now (-6) = Raise (HTTPException 404 d).
Proof.
  assert (Hnow : datetime_in_range Example.now = true) by (vm_compute; reflexivity).
  assert (Hcut : datetime_in_range (cutoff Example.now (-6)) = true)
    by (vm_compute; reflexivity).
  assert (Hle : -6 <= 0) by lia.
  split; [exact week_well_formed|]. repeat (split; [assumption|]).
  exact (@no_hours_no_readings QLib Example.week Example.now (-6) week_well_formed
           Hnow Hcut Hle week_in_the_past).
Defined.

Lemma failure_statuses_witness :
  (forall s e, @fromisoformat QLib s = Raise e -> library_error e) /\
  (@get_analysis QLib Example.week Example.now 100000000
   = Raise (HTTPException 500 (str OverflowError)) ->
   exists d,
     HTTPException 500 (str OverflowError) = HTTPException 404 d \/
     HTTPException 500 (str OverflowError) = HTTPException 500 d) /\
  (@get_readings QLib Example.week Example.now 100000000
   = Raise (HTTPException 500 (str OverflowError)) ->
   exists d, HTTPException 500 (str OverflowError) = HTTPException 500 d).
Proof.
  split; [exact QLib_library_errors|].
  exact (@failure_statuses QLib Example.week Example.now 100000000
           (HTTPException 500 (str OverflowError)) QLib_library_errors).
Defined.
